(** * The financial chatbot of [custom_chatbot.py], embedded in Rocq

    The query interpreter of the repository ([normalize_text], the three
    entity extractors, [money], [get_row], [handle_query], [help_text] and
    the body of the read loop of [main]) is transcribed below as executable
    Rocq functions, followed by the properties of the specification that are
    checked against them.

    Conventions of the embedding.
    - A Python [str] is a [string]; a character is a code point below 256
      (Latin-1), on which [str.lower], [str.strip], the regex classes [\s]
      and [\d] are written out as CPython defines them.
    - A Python [int] is a [Z]; a Python [float] is a primitive binary64
      [float], so that arithmetic, comparisons and rounding are IEEE 754 as
      in CPython.
    - A Python exception is a value [Raise e] of the type [result]. *)

From Stdlib Require Import ZArith NArith List Bool Lia Permutation Sorted.
From Stdlib Require Import Strings.String Strings.Ascii Numbers.DecimalString.
From Stdlib Require Import Floats.PrimFloat Floats.SpecFloat Floats.FloatOps
  Floats.FloatAxioms.
Import ListNotations.

Open Scope string_scope.
Open Scope Z_scope.

(* ================================================================== *)
(** * Python strings *)

Module PyStr.

(** [str.isspace] / regex [\s] on code points below 256. *)
Definition is_space (c : ascii) : bool :=
  let n := N_of_ascii c in
  (((9 <=? n) && (n <=? 13)) || ((28 <=? n) && (n <=? 32))
   || (n =? 133) || (n =? 160))%N.

(** Regex [\d] on code points below 256: the ten ASCII digits. *)
Definition is_digit (c : ascii) : bool :=
  let n := N_of_ascii c in ((48 <=? n) && (n <=? 57))%N.

Definition digit_val (c : ascii) : Z := Z.of_N (N_of_ascii c) - 48.

(** [str.lower] on one code point below 256. *)
Definition lower_char (c : ascii) : ascii :=
  let n := N_of_ascii c in
  if (((65 <=? n) && (n <=? 90))
      || ((192 <=? n) && (n <=? 222) && negb (n =? 215)))%N
  then ascii_of_N (n + 32) else c.

Fixpoint lower (s : string) : string :=
  match s with
  | EmptyString => EmptyString
  | String c t => String (lower_char c) (lower t)
  end.

Fixpoint lstrip (s : string) : string :=
  match s with
  | EmptyString => EmptyString
  | String c t => if is_space c then lstrip t else s
  end.

Fixpoint rstrip (s : string) : string :=
  match s with
  | EmptyString => EmptyString
  | String c t =>
      match rstrip t with
      | EmptyString => if is_space c then EmptyString else String c EmptyString
      | t' => String c t'
      end
  end.

(** [s.strip()] *)
Definition strip (s : string) : string := rstrip (lstrip s).

(** [re.sub(r"\s+", " ", s)]: every maximal run of white space becomes one
    space; [in_run] tells that the previous character was white space. *)
Fixpoint sub_spaces (in_run : bool) (s : string) : string :=
  match s with
  | EmptyString => EmptyString
  | String c t =>
      if is_space c
      then if in_run then sub_spaces true t
           else String " " (sub_spaces true t)
      else String c (sub_spaces false t)
  end.

(** [sub in s] *)
Fixpoint contains (sub s : string) : bool :=
  String.prefix sub s
  || match s with
     | EmptyString => false
     | String _ t => contains sub t
     end.

(** [sep.join(parts)] *)
Fixpoint join (sep : string) (parts : list string) : string :=
  match parts with
  | [] => EmptyString
  | [p] => p
  | p :: rest => p ++ sep ++ join sep rest
  end.

(** [str(n)] for an [int]. *)
Definition str_of_int (n : Z) : string := NilZero.string_of_int (Z.to_int n).

Fixpoint rev_onto (s acc : string) : string :=
  match s with
  | EmptyString => acc
  | String c t => rev_onto t (String c acc)
  end.

Definition reverse (s : string) : string := rev_onto s EmptyString.

(** One attempt of the pattern [20\d{2}] at the start of [s]; the result
    is [int] of the matched text. *)
Definition match_20dd (s : string) : option Z :=
  match s with
  | String "2" (String "0" (String c (String d _))) =>
      if is_digit c && is_digit d
      then Some (2000 + 10 * digit_val c + digit_val d)
      else None
  | _ => None
  end.

(** [re.search(r"(20\d{2})", s)], then [int(m.group(1))]: the leftmost
    match. *)
Fixpoint search_20dd (s : string) : option Z :=
  match match_20dd s with
  | Some y => Some y
  | None =>
      match s with
      | EmptyString => None
      | String _ t => search_20dd t
      end
  end.

(** [[int(y) for y in re.findall(r"20\d{2}", s)]]: the matches from left
    to right, without overlap; [skip] counts the characters that remain of
    the match in progress. *)
Fixpoint findall_20dd (skip : nat) (s : string) : list Z :=
  match s with
  | EmptyString => []
  | String _ t =>
      match skip with
      | S k => findall_20dd k t
      | O =>
          match match_20dd s with
          | Some y => y :: findall_20dd 3 t
          | None => findall_20dd 0 t
          end
      end
  end.

End PyStr.

(* ================================================================== *)
(** * Python containers: [set], [sorted], indexing, [max] *)

Inductive PyExn := IndexError | ValueError | ZeroDivisionError.

Inductive result (A : Type) : Type :=
| Ok (a : A)
| Raise (e : PyExn).
Arguments Ok {A} a.
Arguments Raise {A} e.

Definition bind {A B : Type} (r : result A) (k : A -> result B) : result B :=
  match r with
  | Ok a => k a
  | Raise e => Raise e
  end.

Notation "x <- r ;; k" := (bind r (fun x => k))
  (at level 61, r at next level, right associativity).

Module PyList.

Section Sorting.
Context {A K : Type}.
Variable lt : K -> K -> bool.
Variable key : A -> K.

(** [x] is placed in front of the first element whose key is not below
    its own, so elements of equal key keep their order. *)
Fixpoint insert (x : A) (l : list A) : list A :=
  match l with
  | [] => [x]
  | y :: t => if lt (key y) (key x) then y :: insert x t else x :: y :: t
  end.

Fixpoint isort (l : list A) : list A :=
  match l with
  | [] => []
  | x :: t => insert x (isort t)
  end.

(** [sorted(l, key=key, reverse=reverse)].  CPython compares keys with
    [<] only and sorts stably; with [reverse=True] it reverses the list,
    sorts it in ascending order and reverses the result, which keeps
    elements of equal key in their original order.  On keys that [<]
    orders totally the result of a stable sort is unique, so the
    insertion sort below gives the list that CPython gives. *)
Definition sorted (reverse : bool) (l : list A) : list A :=
  if reverse then rev (isort (rev l)) else isort l.
End Sorting.

(** [set(l)], listed by first occurrence (the order in which Python
    iterates over a set is unspecified; the program sorts every set it
    builds). *)
Fixpoint dedup {A : Type} (eqb : A -> A -> bool) (l : list A) : list A :=
  match l with
  | [] => []
  | x :: t => x :: filter (fun y => negb (eqb x y)) (dedup eqb t)
  end.

(** [l[0]] *)
Definition first {A : Type} (l : list A) : result A :=
  match l with
  | [] => Raise IndexError
  | x :: _ => Ok x
  end.

(** [l[-1]] *)
Fixpoint last {A : Type} (l : list A) : result A :=
  match l with
  | [] => Raise IndexError
  | [x] => Ok x
  | _ :: t => last t
  end.

(** [max(l)] on integers. *)
Definition max (l : list Z) : result Z :=
  match l with
  | [] => Raise ValueError
  | x :: t => Ok (fold_left Z.max t x)
  end.

(** [x in l] on integers. *)
Definition mem (x : Z) (l : list Z) : bool := existsb (Z.eqb x) l.

End PyList.

(* ================================================================== *)
(** * Python floats: truth value, division, fixed-point formatting *)

Module PyFloat.

(** [bool(x)]: every float but the two zeros is true. *)
Definition truthy (x : float) : bool := negb (PrimFloat.eqb x PrimFloat.zero).

(** [a / b] *)
Definition div (a b : float) : result float :=
  if PrimFloat.eqb b PrimFloat.zero then Raise ZeroDivisionError
  else Ok (PrimFloat.div a b).

(** The integer nearest to [n / d] for [0 < d], ties going to the even
    one. *)
Definition round_half_even (n d : Z) : Z :=
  let q := n / d in
  match 2 * (n mod d) ?= d with
  | Lt => q
  | Gt => q + 1
  | Eq => if Z.even q then q else q + 1
  end.

(** [scale * m * 2^e], rounded to an integer. *)
Definition scaled_round (scale : Z) (m : positive) (e : Z) : Z :=
  if 0 <=? e then scale * Zpos m * 2 ^ e
  else round_half_even (scale * Zpos m) (2 ^ (- e)).

(** The [,] option: a comma every three digits, counted from the right.
    [s] is the reversed digit string, [k] the size of the group being
    written. *)
Fixpoint commas_rev (k : nat) (s : string) : string :=
  match s with
  | EmptyString => EmptyString
  | String c t =>
      match k with
      | 3%nat => String "," (String c (commas_rev 1 t))
      | _ => String c (commas_rev (S k) t)
      end
  end.

Definition group_thousands (digits : string) : string :=
  PyStr.reverse (commas_rev 0 (PyStr.reverse digits)).

Fixpoint zeros (k : nat) : string :=
  match k with
  | O => EmptyString
  | S k' => String "0" (zeros k')
  end.

(** [s], padded with zeros on the left to [width] characters. *)
Definition zero_pad (width : nat) (s : string) : string :=
  zeros (width - String.length s) ++ s.

Definition sign_str (s : bool) : string := if s then "-" else "".

(** [format(x, ".{decimals}f")], with the [,] option when [grouping]:
    the exact binary value of [x], correctly rounded (ties to even) to
    [decimals] decimal places. *)
Definition format_f (grouping : bool) (decimals : nat) (x : float) : string :=
  let unit := 10 ^ Z.of_nat decimals in
  let body (n : Z) :=
    let ip := PyStr.str_of_int (n / unit) in
    (if grouping then group_thousands ip else ip)
    ++ match decimals with
       | O => ""
       | _ => "." ++ zero_pad decimals (PyStr.str_of_int (n mod unit))
       end in
  match Prim2SF x with
  | S754_nan => "nan"
  | S754_infinity s => sign_str s ++ "inf"
  | S754_zero s => sign_str s ++ body 0
  | S754_finite s m e => sign_str s ++ body (scaled_round unit m e)
  end.

End PyFloat.

(* ================================================================== *)
(** * The chatbot ([custom_chatbot.py]) *)

Module Chatbot.
Import PyStr.

(** The five metric columns: the values of [METRIC_ALIASES]. *)
Inductive Metric :=
| TotalRevenue | NetIncome | TotalAssets | TotalLiabilities | OperatingCashFlow.

(** The canonical name of a metric, as the program stores and prints it. *)
Definition metric_name (m : Metric) : string :=
  match m with
  | TotalRevenue => "Total Revenue (USD millions)"
  | NetIncome => "Net Income (USD millions)"
  | TotalAssets => "Total Assets (USD millions)"
  | TotalLiabilities => "Total Liabilities (USD millions)"
  | OperatingCashFlow => "Operating Cash Flow (USD millions)"
  end.

(** [METRIC_ALIASES.items()], in the order of the dict literal. *)
Definition METRIC_ALIASES : list (string * Metric) :=
  [ ("revenue", TotalRevenue);
    ("total revenue", TotalRevenue);
    ("income", NetIncome);
    ("net income", NetIncome);
    ("profit", NetIncome);
    ("assets", TotalAssets);
    ("total assets", TotalAssets);
    ("liabilities", TotalLiabilities);
    ("total liabilities", TotalLiabilities);
    ("debt", TotalLiabilities);
    ("cash flow", OperatingCashFlow);
    ("operating cash flow", OperatingCashFlow);
    ("cfo", OperatingCashFlow) ].

(** A cleaned row of [load_data]: company, fiscal year, file, and one
    float for each metric column. *)
Record Row := {
  Company : string;
  FiscalYear : Z;
  File : string;
  total_revenue : float;
  net_income : float;
  total_assets : float;
  total_liabilities : float;
  operating_cash_flow : float
}.

(** [float(row[metric])] *)
Definition row_get (r : Row) (m : Metric) : float :=
  match m with
  | TotalRevenue => total_revenue r
  | NetIncome => net_income r
  | TotalAssets => total_assets r
  | TotalLiabilities => total_liabilities r
  | OperatingCashFlow => operating_cash_flow r
  end.

Record BotContext := {
  rows : list Row;
  companies : list string;
  years : list Z
}.

(** [load_data], from the rows that the CSV reader delivered and the loop
    cleaned. *)
Definition load_data (clean_rows : list Row) : BotContext :=
  {| rows := clean_rows;
     companies :=
       PyList.sorted String.ltb (fun c : string => c) false
         (PyList.dedup String.eqb (map Company clean_rows));
     years :=
       PyList.sorted Z.ltb (fun y : Z => y) false
         (PyList.dedup Z.eqb (map FiscalYear clean_rows)) |}.

Definition normalize_text (text : string) : string :=
  sub_spaces false (lower (strip text)).

Fixpoint find_company_in (q : string) (companies : list string) : option string :=
  match companies with
  | [] => None
  | company :: rest =>
      if contains (lower company) q then Some company
      else find_company_in q rest
  end.

Definition find_company (query : string) (companies : list string) : option string :=
  find_company_in (normalize_text query) companies.

Definition find_year (query : string) (years : list Z) : option Z :=
  match search_20dd query with
  | Some year => if PyList.mem year years then Some year else None
  | None => None
  end.

(** [sorted(METRIC_ALIASES.items(), key=lambda x: len(x[0]), reverse=True)] *)
Definition aliases_by_length : list (string * Metric) :=
  PyList.sorted Nat.ltb (fun x : string * Metric => String.length (fst x)) true
    METRIC_ALIASES.

Fixpoint find_metric_in (q : string) (items : list (string * Metric)) : option Metric :=
  match items with
  | [] => None
  | (alias, metric) :: rest =>
      if contains alias q then Some metric else find_metric_in q rest
  end.

Definition find_metric (query : string) : option Metric :=
  find_metric_in (normalize_text query) aliases_by_length.

(** [f"${value:,.0f}M"] *)
Definition money (value : float) : string :=
  "$" ++ PyFloat.format_f true 0 value ++ "M".

Fixpoint get_row_in (l : list Row) (company : string) (year : Z) : option Row :=
  match l with
  | [] => None
  | row :: rest =>
      if String.eqb (lower (Company row)) (lower company)
         && (FiscalYear row =? year)
      then Some row
      else get_row_in rest company year
  end.

Definition get_row (ctx : BotContext) (company : string) (year : Z) : option Row :=
  get_row_in (rows ctx) company year.

(** [", ".join(str(y) for y in ctx.years)] *)
Definition years_text (ctx : BotContext) : string :=
  join ", " (map str_of_int (years ctx)).

Definition LF : string := String (ascii_of_nat 10) EmptyString.

Definition help_text (ctx : BotContext) : string :=
  "Custom Financial Chatbot" ++ LF
  ++ "- Companies: " ++ join ", " (companies ctx) ++ LF
  ++ "- Years: " ++ years_text ctx ++ LF ++ LF
  ++ "Examples:" ++ LF
  ++ "- Apple revenue 2025" ++ LF
  ++ "- compare net income 2024" ++ LF
  ++ "- top operating cash flow 2025" ++ LF
  ++ "- growth of Tesla revenue from 2023 to 2025" ++ LF
  ++ "- Microsoft summary" ++ LF
  ++ "- list companies" ++ LF
  ++ "- list years" ++ LF
  ++ "- exit".

(** Truth values of the optional results, as [if not x] tests them. *)
Definition truthy_str (o : option string) : bool :=
  match o with
  | Some s => negb (String.eqb s "")
  | None => false
  end.

Definition truthy_int (o : option Z) : bool :=
  match o with
  | Some n => negb (n =? 0)
  | None => false
  end.

(** A metric name is never empty, so an extracted metric is true. *)
Definition truthy_metric (o : option Metric) : bool :=
  match o with
  | Some _ => true
  | None => false
  end.

(** [[r for r in ctx.rows if int(r["Fiscal Year (filename)"]) == year]] *)
Definition rows_of_year (ctx : BotContext) (year : Z) : list Row :=
  filter (fun r => FiscalYear r =? year) (rows ctx).

(** [sorted(yearly, key=lambda r: float(r[metric]), reverse=True)] *)
Definition by_metric_desc (metric : Metric) (yearly : list Row) : list Row :=
  PyList.sorted PrimFloat.ltb (fun r => row_get r metric) true yearly.

(** The branch [if "top" in q or "highest" in q] (lines 109-115). *)
Definition ranking (ctx : BotContext) (q : string) : result string :=
  let metric := find_metric q in
  let year := find_year q (years ctx) in
  match metric, year with
  | Some m, Some y =>
      if negb (truthy_metric metric) || negb (truthy_int year)
      then Ok "Please specify both metric and year. Example: top revenue in 2025"
      else
        let yearly := rows_of_year ctx y in
        top_row <- PyList.first (by_metric_desc m yearly) ;;
        Ok ("Top " ++ metric_name m ++ " in " ++ str_of_int y ++ ": "
            ++ Company top_row ++ " with " ++ money (row_get top_row m) ++ ".")
  | _, _ => Ok "Please specify both metric and year. Example: top revenue in 2025"
  end.

(** The branch [if "compare" in q] (lines 118-127). *)
Definition comparison (ctx : BotContext) (q : string) : result string :=
  let metric := find_metric q in
  let year := find_year q (years ctx) in
  match metric, year with
  | Some m, Some y =>
      if negb (truthy_metric metric) || negb (truthy_int year)
      then Ok "For compare, include metric and year. Example: compare net income 2024"
      else
        let yearly := by_metric_desc m (rows_of_year ctx y) in
        let lines :=
          (metric_name m ++ " in " ++ str_of_int y ++ ":")
          :: map (fun row => "- " ++ Company row ++ ": " ++ money (row_get row m))
               yearly in
        Ok (join LF lines)
  | _, _ => Ok "For compare, include metric and year. Example: compare net income 2024"
  end.

(** [sorted(set(int(y) for y in re.findall(r"20\d{2}", q)))] *)
Definition growth_years (q : string) : list Z :=
  PyList.sorted Z.ltb (fun y : Z => y) false
    (PyList.dedup Z.eqb (findall_20dd 0 q)).

(** [(delta / old) * 100 if old else 0] *)
Definition percent_change (delta old : float) : result float :=
  if PyFloat.truthy old
  then (d <- PyFloat.div delta old ;; Ok (PrimFloat.mul d 100%float))
  else Ok PrimFloat.zero.

(** Lines 145-153: the report on the two rows found. *)
Definition growth_report (company : string) (m : Metric) (y1 y2 : Z)
    (r1 r2 : Row) : result string :=
  let old := row_get r1 m in
  let new := row_get r2 m in
  let delta := PrimFloat.sub new old in
  pct <- percent_change delta old ;;
  let sign := if PrimFloat.leb PrimFloat.zero delta then "+" else "-" in
  Ok (company ++ " " ++ metric_name m ++ " changed from " ++ money old
      ++ " (" ++ str_of_int y1 ++ ") to " ++ money new
      ++ " (" ++ str_of_int y2 ++ "): "
      ++ sign ++ money (PrimFloat.abs delta)
      ++ " (" ++ sign ++ PyFloat.format_f false 2 (PrimFloat.abs pct) ++ "%).").

(** Lines 139-153: from the two endpoint years on. *)
Definition growth_between (ctx : BotContext) (company : string) (m : Metric)
    (y1 y2 : Z) : result string :=
  if negb (PyList.mem y1 (years ctx)) || negb (PyList.mem y2 (years ctx))
  then Ok ("Available years are: " ++ years_text ctx)
  else
    match get_row ctx company y1, get_row ctx company y2 with
    | Some r1, Some r2 => growth_report company m y1 y2 r1 r2
    | _, _ =>
        Ok ("Missing data for " ++ company ++ " in " ++ str_of_int y1
            ++ " or " ++ str_of_int y2 ++ ".")
    end.

Definition growth_guidance : string :=
  "For growth, include company, metric, and two years. "
  ++ "Example: growth of Tesla revenue from 2023 to 2025".

(** The branch [if "growth" in q or "change" in q] (lines 130-153). *)
Definition growth (ctx : BotContext) (q : string) : result string :=
  let company := find_company q (companies ctx) in
  let metric := find_metric q in
  let ys := growth_years q in
  match company, metric with
  | Some c, Some m =>
      if negb (truthy_str company) || negb (truthy_metric metric)
         || (List.length ys <? 2)%nat
      then Ok growth_guidance
      else
        y1 <- PyList.first ys ;;
        y2 <- PyList.last ys ;;
        growth_between ctx c m y1 y2
  | _, _ => Ok growth_guidance
  end.

Definition not_understood : string :=
  "I couldn't understand that. Type `help` for examples." ++ LF
  ++ "Tip: ask like 'Apple revenue 2025' or 'compare net income 2024'.".

(** Lines 166-177: the summary of [company] for the latest year. *)
Definition summary (ctx : BotContext) (company : string) : result string :=
  latest <- PyList.max (years ctx) ;;
  match get_row ctx company latest with
  | None => Ok ("No summary available for " ++ company ++ ".")
  | Some row =>
      Ok (company ++ " summary (" ++ str_of_int latest ++ "):" ++ LF
          ++ "- Revenue: " ++ money (row_get row TotalRevenue) ++ LF
          ++ "- Net Income: " ++ money (row_get row NetIncome) ++ LF
          ++ "- Total Assets: " ++ money (row_get row TotalAssets) ++ LF
          ++ "- Total Liabilities: " ++ money (row_get row TotalLiabilities) ++ LF
          ++ "- Operating Cash Flow: " ++ money (row_get row OperatingCashFlow))
  end.

(** Lines 155-182: point lookup, summary, and the fallback. *)
Definition lookup (ctx : BotContext) (q : string) : result string :=
  let company := find_company q (companies ctx) in
  let year := find_year q (years ctx) in
  let metric := find_metric q in
  match company, year, metric with
  | Some c, Some y, Some m =>
      if truthy_str company && truthy_int year && truthy_metric metric
      then
        match get_row ctx c y with
        | None => Ok ("No data for " ++ c ++ " in " ++ str_of_int y ++ ".")
        | Some row =>
            Ok (c ++ " " ++ metric_name m ++ " in " ++ str_of_int y ++ ": "
                ++ money (row_get row m) ++ ".")
        end
      else if truthy_str company && (contains "summary" q || contains "overview" q)
      then summary ctx c
      else Ok not_understood
  | Some c, _, _ =>
      if truthy_str company && (contains "summary" q || contains "overview" q)
      then summary ctx c
      else Ok not_understood
  | None, _, _ => Ok not_understood
  end.

(** The chain of tests of [handle_query] on the normalized query: the
    first test that holds selects the branch. *)
Inductive Intent :=
| Help | ListCompanies | ListYears | Ranking | Comparison | Growth | Lookup.

Definition intent (q : string) : Intent :=
  if String.eqb q "help" || String.eqb q "h" || String.eqb q "?" then Help
  else if contains "list companies" q || String.eqb "companies" q then ListCompanies
  else if contains "list years" q || String.eqb "years" q then ListYears
  else if contains "top" q || contains "highest" q then Ranking
  else if contains "compare" q then Comparison
  else if contains "growth" q || contains "change" q then Growth
  else Lookup.

Definition handle_query (ctx : BotContext) (query : string) : result string :=
  let q := normalize_text query in
  match intent q with
  | Help => Ok (help_text ctx)
  | ListCompanies => Ok ("Companies: " ++ join ", " (companies ctx))
  | ListYears => Ok ("Years: " ++ years_text ctx)
  | Ranking => ranking ctx q
  | Comparison => comparison ctx q
  | Growth => growth ctx q
  | Lookup => lookup ctx q
  end.

(** One turn of the read loop of [main] on the line [user] that [input]
    returned: the loop goes on with the context it had ([Continue]), with
    or without a line printed, or ends ([Stop]). *)
Inductive Turn :=
| Continue (ctx : BotContext) (printed : option (result string))
| Stop (printed : string).

Definition main_turn (ctx : BotContext) (line : string) : Turn :=
  let user := strip line in
  if String.eqb user "" then Continue ctx None
  else if String.eqb (normalize_text user) "exit"
          || String.eqb (normalize_text user) "quit"
  then Stop "Bot: Bye."
  else Continue ctx (Some (r <- handle_query ctx user ;; Ok ("Bot: " ++ r))).

End Chatbot.

(* ================================================================== *)
(** * Sample datasets *)

Module Sample.
Import Chatbot.

Definition row (company : string) (year : Z) (revenue income : float) : Row :=
  {| Company := company;
     FiscalYear := year;
     File := company ++ "_" ++ PyStr.str_of_int year ++ ".pdf";
     total_revenue := revenue;
     net_income := income;
     total_assets := 1000%float;
     total_liabilities := 600%float;
     operating_cash_flow := 50%float |}.

(** Three companies in 2025 with net incomes 500, 900 and 300, a fourth
    that ties with the second, a company without a row for the latest
    year, and a revenue of zero in 2023. *)
Definition dataset : list Row :=
  [ row "Tesla" 2023 0%float 5%float;
    row "Amazon" 2024 300000%float 120%float;
    row "Apple" 2025 400000%float 500%float;
    row "Microsoft" 2025 250000%float 900%float;
    row "Tesla" 2025 100%float 300%float;
    row "Meta" 2025 160000%float 900%float ].

(** A company whose name is the beginning of the name of another. *)
Definition prefix_dataset : list Row :=
  [ row "Apple" 2025 400000%float 500%float;
    row "App" 2025 10%float 1%float ].

(** A fiscal year of the last century. *)
Definition old_dataset : list Row :=
  [ row "Apple" 1999 6000%float 600%float ].

End Sample.

(* ================================================================== *)
(** * Predicates used to state the properties *)

(** Every match of the pattern [20\d{2}] in [s], at any position, reads the
    year [Y]. *)
Fixpoint only_year (Y : Z) (s : string) : bool :=
  match PyStr.match_20dd s with
  | Some y => y =? Y
  | None => true
  end
  && match s with
     | EmptyString => true
     | String _ t => only_year Y t
     end.

(** [str(Y)] is "20" and two digits that read [Y]. *)
Definition year_text_ok (Y : Z) : bool :=
  match PyStr.str_of_int Y with
  | String "2" (String "0" (String c (String d EmptyString))) =>
      PyStr.is_digit c && PyStr.is_digit d && (2000 + 10 * PyStr.digit_val c + PyStr.digit_val d =? Y)
  | _ => false
  end.

(** Every white-space character of [s] is a space that does not follow
    another white-space character; [prev_space] tells that the character
    before [s] is white space. *)
Fixpoint single_spaced (prev_space : bool) (s : string) : bool :=
  match s with
  | EmptyString => true
  | String c t =>
      if PyStr.is_space c
      then Ascii.eqb c " " && negb prev_space && single_spaced true t
      else single_spaced false t
  end.

(** [s] is single-spaced and does not end with white space; with
    [prev_space] it does not begin with white space either. *)
Fixpoint trimmed_from (prev_space : bool) (s : string) : bool :=
  match s with
  | EmptyString => negb prev_space
  | String c t =>
      if PyStr.is_space c
      then Ascii.eqb c " " && negb prev_space && trimmed_from true t
      else trimmed_from false t
  end.

(** The shape of a normalized text: empty, or single-spaced with no white
    space at either end. *)
Definition is_normalized (s : string) : bool :=
  match s with
  | EmptyString => true
  | _ => trimmed_from true s
  end.


(* ================================================================== *)
(** * The read loop of [main] *)

Module Loop.
Import Chatbot.

Definition banner : string :=
  "Financial Chatbot ready. Type `help` for sample questions. Type `exit` to quit.".

(** The [while True] loop of [main] on the lines that [input] returns one
    after the other, the end of the list being the end of the input
    ([EOFError]).  The result is the list of the texts that [print]
    writes, and the exception that ends the program if one does. *)
Fixpoint main_loop (ctx : BotContext) (input : list string)
  : list string * option PyExn :=
  match input with
  | [] => ([LF ++ "Bot: Bye."], None)
  | line :: rest =>
      match main_turn ctx line with
      | Stop bye => ([bye], None)
      | Continue ctx' None => main_loop ctx' rest
      | Continue ctx' (Some (Ok text)) =>
          let (out, e) := main_loop ctx' rest in (text :: out, e)
      | Continue ctx' (Some (Raise e)) => ([], Some e)
      end
  end.

(** [main], from the rows that [load_data] read. *)
Definition main (clean_rows : list Row) (input : list string)
  : list string * option PyExn :=
  let (out, e) := main_loop (load_data clean_rows) input in
  (banner :: out, e).

End Loop.

(* ================================================================== *)
(** * Datasets with unusual company names *)

Module Edge.
Import Chatbot.

(** A row whose company cell is empty. *)
Definition nameless : list Row :=
  [ Sample.row "Apple" 2025 400000%float 500%float;
    Sample.row "" 2024 10%float 1%float ].

(** A company name with two spaces in a row. *)
Definition double_spaced : list Row :=
  [ Sample.row "Foo  Bar" 2025 10%float 1%float ].

End Edge.

(* ================================================================== *)
(** * Facts on the container operations *)

Section SortFacts.
Context {A K : Type}.
Variable lt : K -> K -> bool.
Variable key : A -> K.

Lemma insert_perm (x : A) (l : list A) :
  Permutation (PyList.insert lt key x l) (x :: l).
Proof.
  induction l as [|y t IH]; simpl; [reflexivity|].
  destruct (lt (key y) (key x)); [|reflexivity].
  rewrite IH. apply perm_swap.
Qed.

Lemma isort_perm (l : list A) : Permutation (PyList.isort lt key l) l.
Proof.
  induction l as [|x t IH]; simpl; [constructor|].
  rewrite insert_perm. now constructor.
Qed.

Lemma sorted_perm (reverse : bool) (l : list A) :
  Permutation (PyList.sorted lt key reverse l) l.
Proof.
  unfold PyList.sorted. destruct reverse.
  - rewrite <- Permutation_rev, isort_perm. symmetry. apply Permutation_rev.
  - apply isort_perm.
Qed.

Lemma sorted_In (reverse : bool) (l : list A) (x : A) :
  In x (PyList.sorted lt key reverse l) <-> In x l.
Proof.
  split; apply Permutation_in; [|symmetry]; apply sorted_perm.
Qed.

Lemma sorted_length (reverse : bool) (l : list A) :
  List.length (PyList.sorted lt key reverse l) = List.length l.
Proof. apply Permutation_length, sorted_perm. Qed.







(** The ascending sort is sorted, when [lt] decides a total preorder. *)
Variable le : K -> K -> Prop.
Hypothesis lt_true : forall a b, lt a b = true -> le a b.
Hypothesis lt_false : forall a b, lt a b = false -> le b a.
Hypothesis le_trans : forall a b c, le a b -> le b c -> le a c.

Lemma insert_sorted (x : A) (l : list A) :
  StronglySorted (fun a b => le (key a) (key b)) l ->
  StronglySorted (fun a b => le (key a) (key b)) (PyList.insert lt key x l).
Proof.
  induction 1 as [|y t Ht IH Hy]; simpl.
  - repeat constructor.
  - destruct (lt (key y) (key x)) eqn:E.
    + constructor; [exact IH|].
      rewrite Forall_forall in *. intros z Hz.
      apply (Permutation_in _ (insert_perm x t)) in Hz.
      destruct Hz as [<-|Hz]; [now apply lt_true|now apply Hy].
    + constructor; [now constructor|].
      constructor; [now apply lt_false|].
      rewrite Forall_forall in *. intros z Hz.
      eapply le_trans; [apply lt_false, E|now apply Hy].
Qed.

Lemma isort_sorted (l : list A) :
  StronglySorted (fun a b => le (key a) (key b)) (PyList.isort lt key l).
Proof.
  induction l as [|x t IH]; simpl; [constructor|now apply insert_sorted].
Qed.
End SortFacts.

Lemma dedup_In {A : Type} (eqb : A -> A -> bool)
    (eqb_eq : forall a b, eqb a b = true <-> a = b) (l : list A) (x : A) :
  In x (PyList.dedup eqb l) <-> In x l.
Proof.
  induction l as [|y t IH]; simpl; [tauto|].
  rewrite filter_In, IH. split.
  - tauto.
  - intros [->|H]; [now left|].
    destruct (eqb y x) eqn:E.
    + left. now apply eqb_eq.
    + right. split; [assumption|reflexivity].
Qed.

Lemma dedup_NoDup {A : Type} (eqb : A -> A -> bool)
    (eqb_eq : forall a b, eqb a b = true <-> a = b) (l : list A) :
  NoDup (PyList.dedup eqb l).
Proof.
  induction l as [|y t IH]; simpl; constructor.
  - rewrite filter_In. intros [_ H].
    assert (E : eqb y y = true) by now apply eqb_eq.
    rewrite E in H. discriminate.
  - now apply NoDup_filter.
Qed.

Lemma mem_In (x : Z) (l : list Z) : PyList.mem x l = true <-> In x l.
Proof.
  unfold PyList.mem. rewrite existsb_exists. split.
  - intros (y & Hy & E). apply Z.eqb_eq in E. now subst.
  - intros H. exists x. split; [assumption|apply Z.eqb_refl].
Qed.

(* ================================================================== *)
(** * Facts on the extractors and on [load_data] *)

Import PyStr Chatbot.

Lemma years_of_load_data (clean_rows : list Row) (y : Z) :
  In y (years (load_data clean_rows))
  <-> exists r, In r clean_rows /\ FiscalYear r = y.
Proof.
  unfold load_data; cbn [years].
  rewrite sorted_In, (dedup_In Z.eqb Z.eqb_eq), in_map_iff.
  split; intros (r & H1 & H2); exists r; auto.
Qed.

Lemma companies_of_load_data (clean_rows : list Row) (c : string) :
  In c (companies (load_data clean_rows))
  <-> exists r, In r clean_rows /\ Company r = c.
Proof.
  unfold load_data; cbn [companies].
  rewrite sorted_In, (dedup_In String.eqb String.eqb_eq), in_map_iff.
  split; intros (r & H1 & H2); exists r; auto.
Qed.

Lemma digit_val_range (c : ascii) :
  is_digit c = true -> 0 <= digit_val c <= 9.
Proof.
  unfold is_digit, digit_val. rewrite andb_true_iff, !N.leb_le. lia.
Qed.

Lemma match_20dd_inv (s : string) (y : Z) :
  match_20dd s = Some y ->
  exists c d t,
    s = String "2" (String "0" (String c (String d t)))
    /\ is_digit c = true /\ is_digit d = true
    /\ y = 2000 + 10 * digit_val c + digit_val d.
Proof.
  destruct s as [|a [|b [|c [|d t]]]];
    try (unfold match_20dd; discriminate);
    try (destruct a as [[] [] [] [] [] [] [] []]; discriminate);
    try (destruct a as [[] [] [] [] [] [] [] []]; try discriminate;
         destruct b as [[] [] [] [] [] [] [] []]; discriminate).
  destruct a as [[] [] [] [] [] [] [] []]; try discriminate.
  destruct b as [[] [] [] [] [] [] [] []]; try discriminate.
  cbv beta iota delta [match_20dd].
  destruct (is_digit c) eqn:Ec; [|discriminate].
  destruct (is_digit d) eqn:Ed; [|discriminate].
  intros [= <-]. exists c, d, t. auto.
Qed.

Lemma match_20dd_range (s : string) (y : Z) :
  match_20dd s = Some y -> 2000 <= y <= 2099.
Proof.
  intros H. apply match_20dd_inv in H.
  destruct H as (c & d & t & _ & Ec & Ed & ->).
  apply digit_val_range in Ec, Ed. lia.
Qed.

Lemma search_20dd_cons (c : ascii) (t : string) :
  search_20dd (String c t)
  = match match_20dd (String c t) with
    | Some y => Some y
    | None => search_20dd t
    end.
Proof. reflexivity. Qed.

Lemma search_20dd_range (s : string) (y : Z) :
  search_20dd s = Some y -> 2000 <= y <= 2099.
Proof.
  induction s as [|c t IH].
  - discriminate.
  - rewrite search_20dd_cons.
    destruct (match_20dd (String c t)) eqn:E.
    + intros [= <-]. eapply match_20dd_range, E.
    + exact IH.
Qed.

Lemma findall_20dd_sound (skip : nat) (s : string) (y : Z) :
  In y (findall_20dd skip s) ->
  exists pre post, s = pre ++ post /\ match_20dd post = Some y.
Proof.
  revert skip. induction s as [|c t IH]; intros skip; [contradiction|].
  cbn [findall_20dd]. destruct skip as [|k].
  - destruct (match_20dd (String c t)) as [y'|] eqn:M.
    + intros [<-|H].
      * now exists "", (String c t).
      * destruct (IH _ H) as (pre & post & -> & M').
        now exists (String c pre), post.
    + intros H. destruct (IH _ H) as (pre & post & -> & M').
      now exists (String c pre), post.
  - intros H. destruct (IH _ H) as (pre & post & -> & M').
    now exists (String c pre), post.
Qed.

Lemma find_year_Some (q : string) (ys : list Z) (y : Z) :
  find_year q ys = Some y ->
  search_20dd q = Some y /\ In y ys /\ 2000 <= y <= 2099.
Proof.
  unfold find_year. destruct (search_20dd q) as [y'|] eqn:E; [|discriminate].
  destruct (PyList.mem y' ys) eqn:M; [|discriminate].
  intros [= <-]. repeat split; try (eapply search_20dd_range, E).
  now apply mem_In.
Qed.


Lemma find_company_in_Some (q : string) (cs : list string) (c : string) :
  find_company_in q cs = Some c ->
  In c cs /\ contains (lower c) q = true.
Proof.
  induction cs as [|d t IH]; simpl; [discriminate|].
  destruct (contains (lower d) q) eqn:E.
  - intros [= <-]. auto.
  - intros H. destruct (IH H). auto.
Qed.

Lemma rows_of_year_In (ctx : BotContext) (y : Z) (r : Row) :
  In r (rows_of_year ctx y) <-> In r (rows ctx) /\ FiscalYear r = y.
Proof.
  unfold rows_of_year. rewrite filter_In, Z.eqb_eq. reflexivity.
Qed.

(** Every year of a loaded context is the year of one of its rows. *)
Lemma rows_of_known_year (clean_rows : list Row) (y : Z) :
  In y (years (load_data clean_rows)) ->
  rows_of_year (load_data clean_rows) y <> [].
Proof.
  intros H. apply years_of_load_data in H. destruct H as (r & Hr & Hy).
  assert (In r (rows_of_year (load_data clean_rows) y))
    by (apply rows_of_year_In; auto).
  intros E. rewrite E in H. contradiction.
Qed.

Lemma first_Ok {A : Type} (l : list A) :
  l <> [] -> exists x, PyList.first l = Ok x.
Proof. destruct l as [|x t]; [congruence|]. intros _. now exists x. Qed.

Lemma last_Ok {A : Type} (l : list A) :
  l <> [] -> exists x, PyList.last l = Ok x.
Proof.
  induction l as [|x t IH]; [congruence|]. intros _.
  destruct t as [|y t']; [now exists x|].
  apply IH. discriminate.
Qed.

Lemma sorted_nonempty {A K : Type} (lt : K -> K -> bool) (key : A -> K)
    (reverse : bool) (l : list A) :
  l <> [] -> PyList.sorted lt key reverse l <> [].
Proof.
  intros H E. apply H. apply length_zero_iff_nil.
  rewrite <- (sorted_length lt key reverse), E. reflexivity.
Qed.

(** ** The branches of [handle_query] return *)

Lemma percent_change_Ok (delta old : float) :
  percent_change delta old
  = Ok (if PrimFloat.eqb old PrimFloat.zero then PrimFloat.zero
        else PrimFloat.mul (PrimFloat.div delta old) 100%float).
Proof.
  unfold percent_change, PyFloat.truthy, PyFloat.div.
  destruct (PrimFloat.eqb old PrimFloat.zero); reflexivity.
Qed.

Lemma growth_report_Ok (c : string) (m : Metric) (y1 y2 : Z) (r1 r2 : Row) :
  exists s, growth_report c m y1 y2 r1 r2 = Ok s.
Proof.
  unfold growth_report. rewrite percent_change_Ok. simpl. eauto.
Qed.

Lemma growth_between_Ok (ctx : BotContext) (c : string) (m : Metric) (y1 y2 : Z) :
  exists s, growth_between ctx c m y1 y2 = Ok s.
Proof.
  unfold growth_between.
  destruct (negb (PyList.mem y1 (years ctx)) || negb (PyList.mem y2 (years ctx)));
    [eauto|].
  destruct (get_row ctx c y1), (get_row ctx c y2); eauto using growth_report_Ok.
Qed.

Lemma growth_Ok (ctx : BotContext) (q : string) :
  exists s, growth ctx q = Ok s.
Proof.
  unfold growth.
  destruct (find_company q (companies ctx)) as [c|]; [|eauto].
  destruct (find_metric q) as [m|]; [|eauto].
  destruct (negb (truthy_str (Some c)) || negb (truthy_metric (Some m))); [simpl; eauto|].
  simpl. destruct (Nat.ltb_spec (List.length (growth_years q)) 2); [eauto|].
  assert (N : growth_years q <> []) by (intros E; rewrite E in *; simpl in *; lia).
  destruct (first_Ok _ N) as [y1 ->]. destruct (last_Ok _ N) as [y2 ->].
  simpl. apply growth_between_Ok.
Qed.

Lemma comparison_Ok (ctx : BotContext) (q : string) :
  exists s, comparison ctx q = Ok s.
Proof.
  unfold comparison.
  destruct (find_metric q), (find_year q (years ctx)); eauto.
  destruct (negb _ || negb _); eauto.
Qed.

Lemma ranking_Ok (clean_rows : list Row) (q : string) :
  exists s, ranking (load_data clean_rows) q = Ok s.
Proof.
  unfold ranking.
  destruct (find_metric q) as [m|]; [|eauto].
  destruct (find_year q (years (load_data clean_rows))) as [y|] eqn:Ey; [|eauto].
  destruct (negb _ || negb _); [eauto|].
  apply find_year_Some in Ey. destruct Ey as (_ & Hy & _).
  apply rows_of_known_year in Hy.
  destruct (first_Ok (by_metric_desc m (rows_of_year (load_data clean_rows) y)))
    as [top ->].
  - now apply sorted_nonempty.
  - simpl. eauto.
Qed.

Lemma summary_Ok (clean_rows : list Row) (c : string) :
  In c (companies (load_data clean_rows)) ->
  exists s, summary (load_data clean_rows) c = Ok s.
Proof.
  intros H. apply companies_of_load_data in H. destruct H as (r & Hr & _).
  assert (Y : In (FiscalYear r) (years (load_data clean_rows)))
    by (apply years_of_load_data; eauto).
  unfold summary.
  destruct (years (load_data clean_rows)) as [|y t]; [contradiction|].
  simpl. destruct (get_row _ c _); eauto.
Qed.

Lemma lookup_Ok (clean_rows : list Row) (q : string) :
  exists s, lookup (load_data clean_rows) q = Ok s.
Proof.
  unfold lookup.
  destruct (find_company q (companies (load_data clean_rows))) as [c|] eqn:Ec;
    [|eauto].
  apply find_company_in_Some in Ec. destruct Ec as [Hc _].
  pose proof (summary_Ok clean_rows c Hc) as S.
  destruct (find_year q _) as [y|]; destruct (find_metric q) as [m|];
    repeat match goal with
           | |- context [if ?b then _ else _] => destruct b
           | |- context [match get_row ?a ?b ?c with _ => _ end] =>
               destruct (get_row a b c)
           end; eauto.
Qed.

(* ================================================================== *)
(** * The order of floats

    [<] and [<=] on binary64 values are specified by [SFcompare]; on values
    that are not NaN they form a total preorder. *)

Section FloatOrder.







End FloatOrder.








(** ** Lookups in the context *)

Lemma find_company_in_first (q : string) (before after : list string) (c : string) :
  Forall (fun d => contains (lower d) q = false) before ->
  contains (lower c) q = true ->
  find_company_in q (before ++ c :: after) = Some c.
Proof.
  intros Hb Hc. induction Hb as [|d t Hd Ht IH]; simpl.
  - now rewrite Hc.
  - now rewrite Hd.
Qed.


Lemma get_row_in_Some (l : list Row) (c : string) (y : Z) (row : Row) :
  get_row_in l c y = Some row ->
  In row l /\ lower (Company row) = lower c /\ FiscalYear row = y.
Proof.
  induction l as [|r t IH]; simpl; [discriminate|].
  destruct (String.eqb (lower (Company r)) (lower c) && (FiscalYear r =? y)) eqn:E.
  - intros [= <-]. apply andb_true_iff in E. destruct E as [E1 E2].
    apply String.eqb_eq in E1. apply Z.eqb_eq in E2. auto.
  - intros H. destruct (IH H) as (? & ? & ?). auto.
Qed.

Lemma get_row_in_found (l : list Row) (c : string) (y : Z) (r : Row) :
  In r l -> lower (Company r) = lower c -> FiscalYear r = y ->
  exists row, get_row_in l c y = Some row.
Proof.
  induction l as [|r' t IH]; simpl; [contradiction|].
  intros H Hc Hy.
  destruct (String.eqb (lower (Company r')) (lower c) && (FiscalYear r' =? y)) eqn:E;
    [eauto|].
  destruct H as [->|H]; [|auto].
  rewrite Hc, Hy, String.eqb_refl, Z.eqb_refl in E. discriminate.
Qed.

Lemma truthy_str_nonempty (c : string) : c <> "" -> truthy_str (Some c) = true.
Proof.
  intros H. simpl. destruct (String.eqb_spec c ""); [contradiction|reflexivity].
Qed.


(** ** The scan of the aliases *)

Lemma find_metric_in_longest (q : string) (items : list (string * Metric))
    (alias : string) (metric : Metric) :
  StronglySorted
    (fun a b => (String.length (fst b) <= String.length (fst a))%nat) items ->
  In (alias, metric) items ->
  (forall m', In (alias, m') items -> m' = metric) ->
  contains alias q = true ->
  (forall a' m', In (a', m') items -> contains a' q = true ->
                 a' = alias \/ (String.length a' < String.length alias)%nat) ->
  find_metric_in q items = Some metric.
Proof.
  induction 1 as [|[a m0] t Ht IH Hhd]; intros Hin Hfun Hc Hshort.
  - contradiction.
  - simpl. destruct (contains a q) eqn:E.
    + f_equal. destruct (Hshort a m0 (or_introl eq_refl) E) as [->|Hlt].
      * apply Hfun. now left.
      * exfalso. destruct Hin as [[= -> ->]|Hin]; [lia|].
        rewrite Forall_forall in Hhd. specialize (Hhd _ Hin). simpl in Hhd. lia.
    + apply IH.
      * destruct Hin as [[= -> ->]|Hin]; [congruence|assumption].
      * intros m' H'. apply Hfun. now right.
      * assumption.
      * intros a' m' H'. apply (Hshort a' m'). now right.
Qed.

Lemma find_metric_in_Some (q : string) (items : list (string * Metric))
    (metric : Metric) :
  StronglySorted
    (fun a b => (String.length (fst b) <= String.length (fst a))%nat) items ->
  find_metric_in q items = Some metric ->
  exists alias,
    In (alias, metric) items
    /\ contains alias q = true
    /\ forall a' m', In (a', m') items -> contains a' q = true ->
                     (String.length a' <= String.length alias)%nat.
Proof.
  induction 1 as [|[a m0] t Ht IH Hhd]; simpl; [discriminate|].
  destruct (contains a q) eqn:E.
  - intros [= ->]. exists a. split; [now left|]. split; [exact E|].
    intros a' m' [[= -> ->]|Hin] _; [lia|].
    rewrite Forall_forall in Hhd. apply (Hhd _ Hin).
  - intros H. destruct (IH H) as (alias & Hin & Hc & Hmax).
    exists alias. split; [now right|]. split; [exact Hc|].
    intros a' m' [[= -> ->]|Hin'] Hc'; [congruence|eauto].
Qed.

Lemma find_metric_in_None (q : string) (items : list (string * Metric)) :
  find_metric_in q items = None ->
  forall a m, In (a, m) items -> contains a q = false.
Proof.
  induction items as [|[a0 m0] t IH]; simpl; [contradiction|].
  destruct (contains a0 q) eqn:E; [discriminate|].
  intros H a m [[= -> ->]|Hin]; [exact E|eauto].
Qed.

Lemma aliases_by_length_value :
  aliases_by_length
  = [ ("operating cash flow", OperatingCashFlow);
      ("total liabilities", TotalLiabilities);
      ("total revenue", TotalRevenue);
      ("total assets", TotalAssets);
      ("liabilities", TotalLiabilities);
      ("net income", NetIncome);
      ("cash flow", OperatingCashFlow);
      ("revenue", TotalRevenue);
      ("income", NetIncome);
      ("profit", NetIncome);
      ("assets", TotalAssets);
      ("debt", TotalLiabilities);
      ("cfo", OperatingCashFlow) ].
Proof. reflexivity. Qed.

Lemma aliases_by_length_sorted :
  StronglySorted
    (fun a b => (String.length (fst b) <= String.length (fst a))%nat)
    aliases_by_length.
Proof.
  rewrite aliases_by_length_value.
  repeat (constructor; [|repeat (constructor; [simpl; lia|]); constructor]).
  constructor.
Qed.

Lemma aliases_by_length_In (a : string) (m : Metric) :
  In (a, m) aliases_by_length <-> In (a, m) METRIC_ALIASES.
Proof. unfold aliases_by_length. apply sorted_In. Qed.

Lemma NoDup_keys_functional {A B : Type} (l : list (A * B)) (a : A) (b b' : B) :
  NoDup (map fst l) -> In (a, b) l -> In (a, b') l -> b = b'.
Proof.
  induction l as [|[x v] t IH]; simpl; [contradiction|].
  intros N. inversion N as [|? ? Hx Ht]; subst.
  intros [[= -> ->]|H] [[= <-]|H']; try reflexivity; try (now apply IH).
  - exfalso. apply Hx. apply (in_map fst) in H'. exact H'.
  - exfalso. apply Hx. apply (in_map fst) in H. exact H.
Qed.

(** A key of the dict has one value. *)
Lemma METRIC_ALIASES_functional (a : string) (m m' : Metric) :
  In (a, m) METRIC_ALIASES -> In (a, m') METRIC_ALIASES -> m = m'.
Proof.
  apply NoDup_keys_functional. unfold METRIC_ALIASES. simpl.
  repeat (constructor;
          [simpl; intros H;
           repeat (destruct H as [H|H]; [discriminate H|]); exact H|]).
  constructor.
Qed.

(** ** Sorted lists of integers *)




Lemma growth_years_In (q : string) (y : Z) :
  In y (growth_years q) <-> In y (findall_20dd 0 q).
Proof.
  unfold growth_years. rewrite sorted_In. apply dedup_In, Z.eqb_eq.
Qed.


Lemma growth_reached (ctx : BotContext) (query : string) (c : string)
    (m : Metric) (y1 y2 : Z) :
  let q := normalize_text query in
  intent q = Growth ->
  find_company q (companies ctx) = Some c -> c <> "" ->
  find_metric q = Some m ->
  (2 <= List.length (growth_years q))%nat ->
  PyList.first (growth_years q) = Ok y1 ->
  PyList.last (growth_years q) = Ok y2 ->
  handle_query ctx query = growth_between ctx c m y1 y2.
Proof.
  intros q Hi Hc Hne Hm Hlen H1 H2.
  unfold handle_query. cbv zeta. fold q. rewrite Hi.
  unfold growth. rewrite Hc, Hm, (truthy_str_nonempty c Hne).
  cbn [truthy_metric negb orb].
  destruct (Nat.ltb_spec (List.length (growth_years q)) 2); [lia|].
  rewrite H1, H2. reflexivity.
Qed.

(** ** Strings: substrings, lower case and white space *)


Lemma append_empty_r (a : string) : a ++ "" = a.
Proof. induction a as [|x a IH]; simpl; congruence. Qed.

(** ** Reversal and the thousands separators *)









Lemma prefix_refl (s : string) : String.prefix s s = true.
Proof.
  induction s as [|c t IH]; simpl; [reflexivity|].
  destruct (ascii_dec c c); congruence.
Qed.

Lemma prefix_split (sub s : string) :
  String.prefix sub s = true -> exists post, s = sub ++ post.
Proof.
  revert sub. induction s as [|c t IH]; intros [|a sub']; simpl; try discriminate.
  - now exists "".
  - now exists (String c t).
  - destruct (ascii_dec a c) as [->|]; [|discriminate].
    intros H. destruct (IH _ H) as [post ->]. now exists post.
Qed.

Lemma contains_cons (sub : string) (c : ascii) (t : string) :
  contains sub (String c t) = String.prefix sub (String c t) || contains sub t.
Proof. reflexivity. Qed.

Lemma contains_refl (s : string) : contains s s = true.
Proof.
  destruct s as [|c t]; [reflexivity|].
  now rewrite contains_cons, prefix_refl.
Qed.

Lemma contains_split (sub s : string) :
  contains sub s = true -> exists pre post, s = pre ++ sub ++ post.
Proof.
  induction s as [|c t IH].
  - unfold contains. rewrite orb_false_r. intros H.
    destruct (prefix_split _ _ H) as [post E]. now exists "", post.
  - rewrite contains_cons. intros H. apply orb_true_iff in H.
    destruct H as [H|H].
    + destruct (prefix_split _ _ H) as [post E]. now exists "", post.
    + destruct (IH H) as (pre & post & ->). now exists (String c pre), post.
Qed.

Lemma is_space_lower_char (c : ascii) : is_space (lower_char c) = is_space c.
Proof. destruct c as [[] [] [] [] [] [] [] []]; reflexivity. Qed.

Lemma lower_lstrip (s : string) : lower (lstrip s) = lstrip (lower s).
Proof.
  induction s as [|c t IH]; simpl; [reflexivity|].
  rewrite is_space_lower_char. now destruct (is_space c).
Qed.

Lemma lower_rstrip (s : string) : lower (rstrip s) = rstrip (lower s).
Proof.
  induction s as [|c t IH]; simpl; [reflexivity|].
  rewrite <- IH, is_space_lower_char.
  destruct (rstrip t); simpl; [|reflexivity].
  now destruct (is_space c).
Qed.

Lemma lower_strip (s : string) : lower (strip s) = strip (lower s).
Proof. unfold strip. now rewrite lower_rstrip, lower_lstrip. Qed.

(** The normalized text depends on the letters up to their case only. *)
Lemma normalize_text_lower (s t : string) :
  lower s = lower t -> normalize_text s = normalize_text t.
Proof. unfold normalize_text. rewrite !lower_strip. now intros ->. Qed.

(** ** The year pattern *)

Lemma search_20dd_Some_inv (s : string) (y : Z) :
  search_20dd s = Some y ->
  exists pre post, s = pre ++ post /\ match_20dd post = Some y.
Proof.
  induction s as [|c t IH].
  - discriminate.
  - rewrite search_20dd_cons.
    destruct (match_20dd (String c t)) eqn:E.
    + intros [= <-]. now exists "", (String c t).
    + intros H. destruct (IH H) as (pre & post & -> & M).
      now exists (String c pre), post.
Qed.

Lemma search_20dd_found (pre post : string) (y : Z) :
  match_20dd post = Some y -> exists y', search_20dd (pre ++ post) = Some y'.
Proof.
  intros M. induction pre as [|c t IH].
  - simpl. destruct post as [|c t].
    + discriminate.
    + rewrite search_20dd_cons, M. eauto.
  - change (String c t ++ post) with (String c (t ++ post)).
    rewrite search_20dd_cons.
    destruct (match_20dd (String c (t ++ post))); [eauto|exact IH].
Qed.

Lemma year_text_ok_all :
  forallb year_text_ok (map (fun k => 2000 + Z.of_nat k) (seq 0 100)) = true.
Proof. vm_compute. reflexivity. Qed.

(** [str(Y)] of a year of this century is matched by the pattern, and
    [int] of the match is [Y]. *)
Lemma match_20dd_str_of_int (Y : Z) (post : string) :
  2000 <= Y <= 2099 -> match_20dd (str_of_int Y ++ post) = Some Y.
Proof.
  intros R.
  assert (H : year_text_ok Y = true).
  { pose proof year_text_ok_all as A. rewrite forallb_forall in A. apply A.
    apply in_map_iff. exists (Z.to_nat (Y - 2000)). split; [lia|].
    apply in_seq. lia. }
  unfold year_text_ok in H.
  destruct (str_of_int Y) as [|a [|b [|c [|d [|? ?]]]]]; try discriminate;
    try (destruct a as [[] [] [] [] [] [] [] []]; discriminate);
    try (destruct a as [[] [] [] [] [] [] [] []]; try discriminate;
         destruct b as [[] [] [] [] [] [] [] []]; discriminate).
  destruct a as [[] [] [] [] [] [] [] []]; try discriminate.
  destruct b as [[] [] [] [] [] [] [] []]; try discriminate.
  apply andb_true_iff in H. destruct H as [H E].
  apply Z.eqb_eq in E. cbn [append]. cbv beta iota delta [match_20dd].
  rewrite H. now rewrite E.
Qed.

(** ** Rounding *)


(** ** [max] *)

Lemma fold_max_spec (l : list Z) (x : Z) :
  (fold_left Z.max l x = x \/ In (fold_left Z.max l x) l)
  /\ x <= fold_left Z.max l x
  /\ forall y, In y l -> y <= fold_left Z.max l x.
Proof.
  revert x. induction l as [|a t IH]; intros x; simpl.
  - split; [now left|]. split; [lia|]. intros y [].
  - destruct (IH (Z.max x a)) as (H1 & H2 & H3). split; [|split].
    + destruct H1 as [H1|H1].
      * rewrite H1. destruct (Z.max_spec x a) as [[_ E]|[_ E]]; rewrite E; auto.
      * right. right. exact H1.
    + lia.
    + intros y [<-|Hy]; [lia|auto].
Qed.

Lemma max_spec (l : list Z) (x : Z) :
  PyList.max l = Ok x -> In x l /\ forall y, In y l -> y <= x.
Proof.
  destruct l as [|a t]; [discriminate|]. simpl. intros [= <-].
  destruct (fold_max_spec t a) as (H1 & H2 & H3). split.
  - destruct H1 as [->|H1]; auto.
  - intros y [<-|Hy]; auto.
Qed.

(** ** The formatter *)

Lemma format_f0_grouped (x : float) :
  PyFloat.format_f true 0 x
  = match Prim2SF x with
    | S754_nan => "nan"
    | S754_infinity s => PyFloat.sign_str s ++ "inf"
    | S754_zero s => PyFloat.sign_str s ++ "0"
    | S754_finite s m e =>
        PyFloat.sign_str s
        ++ PyFloat.group_thousands (str_of_int (PyFloat.scaled_round 1 m e))
    end.
Proof.
  unfold PyFloat.format_f. cbv zeta.
  change (10 ^ Z.of_nat 0) with 1.
  destruct (Prim2SF x) as [s|s| |s m e]; try reflexivity.
  now rewrite Z.div_1_r, append_empty_r.
Qed.


(** ** The check that a query names one year only *)

Lemma only_year_sound (Y : Z) (s : string) :
  only_year Y s = true ->
  forall pre post y, s = pre ++ post -> match_20dd post = Some y -> y = Y.
Proof.
  intros H pre. revert s H. induction pre as [|c t IH]; intros s H post y E M.
  - simpl in E. subst s. destruct post as [|c t]; [discriminate|].
    cbn [only_year] in H. rewrite M in H.
    apply andb_true_iff in H. destruct H as [H _]. now apply Z.eqb_eq in H.
  - subst s. change (String c t ++ post) with (String c (t ++ post)) in H.
    cbn [only_year] in H. apply andb_true_iff in H. destruct H as [_ H].
    eapply IH; [exact H|reflexivity|exact M].
Qed.

(* ================================================================== *)
(** * The properties of the specification *)

Set Warnings "-inexact-float".

(** C1. On every context that [load_data] builds, [handle_query] returns a
    response for every query and raises nothing.  In particular the year
    that [find_year] extracts is one of the years of the context, and such a
    year is the fiscal year of a row, so the ranking and comparison branches
    index and sort a list that is not empty. *)
Theorem handle_query_never_raises (clean_rows : list Row) (query : string) :
  (exists response, handle_query (load_data clean_rows) query = Ok response)
  /\ (forall y,
        find_year (normalize_text query) (years (load_data clean_rows)) = Some y ->
        In y (years (load_data clean_rows))
        /\ (exists r, In r clean_rows /\ FiscalYear r = y)
        /\ rows_of_year (load_data clean_rows) y <> []).
Proof.
  split.
  - unfold handle_query. cbv zeta.
    destruct (intent (normalize_text query)); eauto using ranking_Ok,
      comparison_Ok, growth_Ok, lookup_Ok.
  - intros y H. apply find_year_Some in H. destruct H as (_ & H & _).
    repeat split.
    + exact H.
    + now apply years_of_load_data.
    + now apply rows_of_known_year.
Qed.



(** C4. [find_metric] scans the aliases by descending length of the phrase
    (aliases of equal length in the order of the table).  When an alias
    occurs in the normalized query and every other alias that occurs in it
    is shorter, its metric is returned; whatever is returned is the metric
    of an alias that occurs in the query and that no occurring alias exceeds
    in length, and nothing is returned only when no alias occurs.  In
    particular a query that contains "net income" and no longer alias
    resolves to the net-income metric, although "income" occurs in it
    too. *)
Theorem find_metric_prefers_longer_alias :
  StronglySorted
    (fun a b => (String.length (fst b) <= String.length (fst a))%nat)
    aliases_by_length
  /\ Permutation aliases_by_length METRIC_ALIASES
  /\ (forall (query alias : string) (metric : Metric),
         let q := normalize_text query in
         In (alias, metric) METRIC_ALIASES ->
         contains alias q = true ->
         (forall a' m', In (a', m') METRIC_ALIASES -> contains a' q = true ->
                        a' = alias \/ (String.length a' < String.length alias)%nat) ->
         find_metric query = Some metric)
  /\ (forall (query : string) (metric : Metric),
         let q := normalize_text query in
         find_metric query = Some metric ->
         exists alias,
           In (alias, metric) METRIC_ALIASES
           /\ contains alias q = true
           /\ forall a' m', In (a', m') METRIC_ALIASES -> contains a' q = true ->
                            (String.length a' <= String.length alias)%nat)
  /\ (forall query : string,
         find_metric query = None ->
         forall a m, In (a, m) METRIC_ALIASES ->
                     contains a (normalize_text query) = false)
  /\ (forall query : string,
         let q := normalize_text query in
         contains "net income" q = true ->
         (forall a' m', In (a', m') METRIC_ALIASES ->
                        (String.length "net income" < String.length a')%nat ->
                        contains a' q = false) ->
         find_metric query = Some NetIncome).
Proof.
  assert (G : forall (query alias : string) (metric : Metric),
             In (alias, metric) METRIC_ALIASES ->
             contains alias (normalize_text query) = true ->
             (forall a' m', In (a', m') METRIC_ALIASES ->
                            contains a' (normalize_text query) = true ->
                            a' = alias
                            \/ (String.length a' < String.length alias)%nat) ->
             find_metric query = Some metric).
  { intros query alias metric Hin Hc Hshort. unfold find_metric.
    apply (find_metric_in_longest _ _ alias metric).
    - exact aliases_by_length_sorted.
    - now apply aliases_by_length_In.
    - intros m' H'. apply aliases_by_length_In in H'.
      eapply METRIC_ALIASES_functional; eassumption.
    - exact Hc.
    - intros a' m' H'. apply (Hshort a' m'). now apply aliases_by_length_In. }
  split; [exact aliases_by_length_sorted|].
  split; [apply sorted_perm|].
  split; [exact G|].
  split.
  { intros query metric q H. unfold find_metric in H.
    destruct (find_metric_in_Some _ _ _ aliases_by_length_sorted H)
      as (alias & Hin & Hc & Hmax).
    exists alias. split; [now apply aliases_by_length_In|]. split; [exact Hc|].
    intros a' m' Hin'. apply (Hmax a' m'). now apply aliases_by_length_In. }
  split.
  { intros query H a m Hin. unfold find_metric in H.
    apply (find_metric_in_None _ _ H a m). now apply aliases_by_length_In. }
  intros query q Hc Hlong. subst q. apply (G query "net income").
  - unfold METRIC_ALIASES. simpl. tauto.
  - exact Hc.
  - intros a' m' Hin Hc'.
    destruct (Nat.ltb_spec (String.length "net income") (String.length a')) as [L|L].
    + rewrite (Hlong a' m' Hin L) in Hc'. discriminate.
    + unfold METRIC_ALIASES in Hin. simpl in Hin.
      repeat (destruct Hin as [[= <- <-]|Hin];
              [first [now left | right; simpl; lia | simpl in L; lia]|]).
      contradiction.
Qed.


(** C6. In the growth report, an old value that is zero gives the percent
    change 0, and any other old value gives (new - old) / old * 100; the
    division raises in neither case, and the handler returns the report
    with that percentage. *)
Theorem growth_percent_guard
    (ctx : BotContext) (query : string) (c : string) (m : Metric)
    (y1 y2 : Z) (r1 r2 : Row) :
  let q := normalize_text query in
  intent q = Growth ->
  find_company q (companies ctx) = Some c -> c <> "" ->
  find_metric q = Some m ->
  (2 <= List.length (growth_years q))%nat ->
  PyList.first (growth_years q) = Ok y1 ->
  PyList.last (growth_years q) = Ok y2 ->
  PyList.mem y1 (years ctx) = true ->
  PyList.mem y2 (years ctx) = true ->
  get_row ctx c y1 = Some r1 ->
  get_row ctx c y2 = Some r2 ->
  let old := row_get r1 m in
  let new := row_get r2 m in
  let delta := PrimFloat.sub new old in
  let pct :=
    if PrimFloat.eqb old PrimFloat.zero then PrimFloat.zero
    else PrimFloat.mul (PrimFloat.div delta old) 100%float in
  let sign := if PrimFloat.leb PrimFloat.zero delta then "+" else "-" in
  percent_change delta old = Ok pct
  /\ handle_query ctx query
     = Ok (c ++ " " ++ metric_name m ++ " changed from " ++ money old
           ++ " (" ++ str_of_int y1 ++ ") to " ++ money new
           ++ " (" ++ str_of_int y2 ++ "): "
           ++ sign ++ money (PrimFloat.abs delta)
           ++ " (" ++ sign ++ PyFloat.format_f false 2 (PrimFloat.abs pct)
           ++ "%).").
Proof.
  intros q Hi Hc Hne Hm Hlen H1 H2 M1 M2 G1 G2 old new delta pct sign.
  split; [apply percent_change_Ok|].
  rewrite (growth_reached ctx query c m y1 y2); try assumption.
  unfold growth_between. rewrite M1, M2, G1, G2. cbn [negb orb].
  unfold growth_report. fold old new delta. rewrite percent_change_Ok.
  reflexivity.
Qed.

(** C7, as the code has it.  The companies are scanned in the order of the
    list, and the first whose lower-case name occurs in the normalized query
    is returned.  For a company [C] whose name is in normal form (no white
    space at either end, single spaces inside), a query that is the name of
    [C] in any letter case returns [C] when no company listed before [C] has
    a lower-case name that occurs in the lower-case name of [C]. *)
Theorem find_company_own_name
    (before after : list string) (C query : string) :
  lower query = lower C ->
  normalize_text C = lower C ->
  Forall (fun D => contains (lower D) (lower C) = false) before ->
  find_company query (before ++ C :: after) = Some C.
Proof.
  intros Hq Hn Hb. unfold find_company.
  rewrite (normalize_text_lower query C Hq), Hn.
  apply find_company_in_first; [exact Hb|apply contains_refl].
Qed.

(** C7 as stated fails: with the companies "App" and "Apple" loaded, the
    query "APPLE" returns "App". *)
Lemma find_company_own_name_counterexample :
  ~ (forall (clean_rows : list Row) (C query : string),
        In C (companies (load_data clean_rows)) ->
        lower query = lower C ->
        find_company query (companies (load_data clean_rows)) = Some C).
Proof.
  intros H.
  specialize (H Sample.prefix_dataset "Apple" "APPLE").
  assert (E : find_company "APPLE" (companies (load_data Sample.prefix_dataset))
              = Some "App") by reflexivity.
  rewrite E in H.
  assert (A : Some "App" = Some "Apple").
  { apply H; [vm_compute; tauto|reflexivity]. }
  discriminate A.
Qed.

(** C8, as the code has it.  The pattern is "20" followed by two digits, so
    only the years 2000 to 2099 are ever extracted: for such a year [Y] of
    the dataset, a query that contains [Y] and in which every match of the
    pattern reads [Y] gives [Y]; and a query whose first match is not a year
    of the dataset gives nothing. *)
Theorem find_year_sole_year :
  (forall (query : string) (known : list Z) (Y : Z),
      In Y known ->
      2000 <= Y <= 2099 ->
      contains (str_of_int Y) query = true ->
      (forall pre post y,
          query = pre ++ post -> match_20dd post = Some y -> y = Y) ->
      find_year query known = Some Y)
  /\ (forall (query : string) (known : list Z) (y : Z),
         search_20dd query = Some y ->
         ~ In y known ->
         find_year query known = None).
Proof.
  split.
  - intros query known Y Hin HR Hc Hsole.
    destruct (contains_split _ _ Hc) as (pre & post & E).
    pose proof (match_20dd_str_of_int Y post HR) as M.
    destruct (search_20dd_found pre _ _ M) as [y' S]. rewrite <- E in S.
    assert (y' = Y) as ->.
    { destruct (search_20dd_Some_inv _ _ S) as (pre' & post' & E' & M').
      eapply Hsole; eassumption. }
    unfold find_year. rewrite S.
    assert (K : PyList.mem Y known = true) by now apply mem_In.
    now rewrite K.
  - intros query known y S Hn. unfold find_year. rewrite S.
    destruct (PyList.mem y known) eqn:K; [|reflexivity].
    apply mem_In in K. contradiction.
Qed.

(** C8 as stated fails for a year outside 2000-2099: with the year 1999
    loaded, the query "revenue 1999" contains 1999 and no other year, and
    nothing is extracted. *)
Lemma find_year_sole_year_counterexample :
  ~ (forall (clean_rows : list Row) (query : string) (Y : Z),
        In Y (years (load_data clean_rows)) ->
        contains (str_of_int Y) query = true ->
        (forall pre post y,
            query = pre ++ post -> match_20dd post = Some y -> y = Y) ->
        find_year query (years (load_data clean_rows)) = Some Y).
Proof.
  intros H.
  specialize (H Sample.old_dataset "revenue 1999" 1999).
  assert (E : find_year "revenue 1999" (years (load_data Sample.old_dataset))
              = None) by reflexivity.
  rewrite E in H.
  assert (A : @None Z = Some 1999).
  { apply H; [vm_compute; tauto|reflexivity|].
    intros pre post y Eq M. exfalso.
    destruct (search_20dd_found pre post y M) as [y' S].
    rewrite <- Eq in S. discriminate S. }
  discriminate A.
Qed.


(** C10.  When the lookup branch is reached with a company extracted, the
    point lookup does not apply (no year or no metric), the query contains
    "summary" or "overview", and the company has no row for the greatest
    year of the dataset, the answer is "No summary available for
    {company}."; and the read loop continues with the context it had. *)
Theorem summary_without_latest_row
    (ctx : BotContext) (query : string) (c : string) (latest : Z) :
  let q := normalize_text query in
  intent q = Lookup ->
  find_company q (companies ctx) = Some c -> c <> "" ->
  find_year q (years ctx) = None \/ find_metric q = None ->
  contains "summary" q || contains "overview" q = true ->
  PyList.max (years ctx) = Ok latest ->
  get_row ctx c latest = None ->
  (In latest (years ctx) /\ forall y, In y (years ctx) -> y <= latest)
  /\ handle_query ctx query = Ok ("No summary available for " ++ c ++ ".")
  /\ (forall line ctx' printed,
         main_turn ctx line = Continue ctx' printed -> ctx' = ctx).
Proof.
  intros q Hi Hc Hne Hpoint Hs Hmax Hrow. split; [|split].
  - now apply max_spec.
  - unfold handle_query. cbv zeta. fold q. rewrite Hi.
    unfold lookup. rewrite Hc, (truthy_str_nonempty c Hne), Hs.
    assert (S : summary ctx c = Ok ("No summary available for " ++ c ++ ".")).
    { unfold summary. rewrite Hmax. simpl. now rewrite Hrow. }
    destruct Hpoint as [-> | ->].
    + exact S.
    + destruct (find_year q (years ctx)); exact S.
  - intros line ctx' printed. unfold main_turn.
    repeat match goal with
           | |- context [if ?b then _ else _] => destruct b
           end; intros [=]; congruence.
Qed.

(* ================================================================== *)
(** * The properties on the sample datasets *)

Lemma handle_query_never_raises_witness :
  In 2025 (years (load_data Sample.dataset))
  /\ rows_of_year (load_data Sample.dataset) 2025 <> [].
Proof.
  destruct (handle_query_never_raises Sample.dataset "top profit 2025") as [_ H].
  destruct (H 2025) as (H1 & _ & H3); [reflexivity|].
  split; assumption.
Defined.



Lemma find_metric_prefers_longer_alias_witness :
  find_metric "Net  Income, not gross income, for 2024" = Some NetIncome.
Proof.
  apply (proj1 (proj2 (proj2 find_metric_prefers_longer_alias))
           "Net  Income, not gross income, for 2024" "net income" NetIncome).
  - simpl. tauto.
  - reflexivity.
  - intros a' m' H. unfold METRIC_ALIASES in H. simpl in H.
    repeat (destruct H as [[= <- <-]|H];
            [first [intros _; left; reflexivity
                   | intros _; right; simpl; lia
                   | intros E; vm_compute in E; discriminate E]|]).
    contradiction.
Defined.


Lemma growth_percent_guard_witness :
  percent_change (PrimFloat.sub 100%float 0%float) 0%float = Ok 0%float
  /\ handle_query (load_data Sample.dataset)
       "growth of Tesla revenue from 2023 to 2025"
     = Ok ("Tesla Total Revenue (USD millions) changed from $0M (2023) "
           ++ "to $100M (2025): +$100M (+0.00%).").
Proof.
  apply (growth_percent_guard (load_data Sample.dataset)
           "growth of Tesla revenue from 2023 to 2025" "Tesla" TotalRevenue
           2023 2025
           (Sample.row "Tesla" 2023 0%float 5%float)
           (Sample.row "Tesla" 2025 100%float 300%float)).
  - reflexivity.
  - reflexivity.
  - discriminate.
  - reflexivity.
  - simpl. lia.
  - reflexivity.
  - reflexivity.
  - reflexivity.
  - reflexivity.
  - reflexivity.
  - reflexivity.
Defined.

Lemma find_company_own_name_witness :
  find_company "mIcRoSoFt" (companies (load_data Sample.dataset))
  = Some "Microsoft".
Proof.
  change (companies (load_data Sample.dataset))
    with (["Amazon"; "Apple"; "Meta"] ++ "Microsoft" :: ["Tesla"])%list.
  apply find_company_own_name.
  - reflexivity.
  - reflexivity.
  - repeat constructor.
Defined.

Lemma find_year_sole_year_witness :
  find_year "apple revenue 2025" (years (load_data Sample.dataset)) = Some 2025
  /\ find_year "apple revenue 2031" (years (load_data Sample.dataset)) = None.
Proof.
  split.
  - apply (proj1 find_year_sole_year).
    + vm_compute. tauto.
    + lia.
    + reflexivity.
    + apply only_year_sound. reflexivity.
  - apply (proj2 find_year_sole_year _ _ 2031).
    + reflexivity.
    + vm_compute. intros [H|[H|[H|[]]]]; discriminate H.
Defined.


Lemma summary_without_latest_row_witness :
  handle_query (load_data Sample.dataset) "Amazon summary"
  = Ok "No summary available for Amazon.".
Proof.
  apply (proj1 (proj2 (summary_without_latest_row (load_data Sample.dataset)
                         "Amazon summary" "Amazon" 2025
                         eq_refl eq_refl
                         ltac:(discriminate) (or_introl eq_refl)
                         eq_refl eq_refl eq_refl))).
Defined.

(** ** Runs of the handlers *)

Example ranking_500_900_300 :
  handle_query (load_data Sample.dataset) "top profit 2025"
  = Ok "Top Net Income (USD millions) in 2025: Microsoft with $900M.".
Proof. reflexivity. Qed.

Example growth_discards_middle_year :
  handle_query (load_data Sample.dataset) "Tesla revenue growth 2023 2024 2025"
  = handle_query (load_data Sample.dataset) "growth of Tesla revenue from 2023 to 2025".
Proof. reflexivity. Qed.

Example growth_unknown_year :
  handle_query (load_data Sample.dataset) "growth of Tesla revenue from 2021 to 2025"
  = Ok "Available years are: 2023, 2024, 2025".
Proof. reflexivity. Qed.

Example money_examples :
  money 400000%float = "$400,000M"
  /\ money 999.5%float = "$1,000M"
  /\ money 2.5%float = "$2M"
  /\ money (-1234.5)%float = "$-1,234M"
  /\ money PrimFloat.infinity = "$infM"
  /\ money PrimFloat.nan = "$nanM".
Proof. repeat split. Qed.

(* ================================================================== *)
(** * Further properties of the code *)

(** ** The shape of a normalized text *)

Lemma lower_char_idempotent (c : ascii) : lower_char (lower_char c) = lower_char c.
Proof. destruct c as [[] [] [] [] [] [] [] []]; reflexivity. Qed.

Lemma lower_idempotent (s : string) : lower (lower s) = lower s.
Proof.
  induction s as [|c t IH]; simpl; [reflexivity|].
  now rewrite lower_char_idempotent, IH.
Qed.

Lemma lower_sub_spaces (b : bool) (s : string) :
  lower (sub_spaces b s) = sub_spaces b (lower s).
Proof.
  revert b. induction s as [|c t IH]; intros b; simpl; [reflexivity|].
  rewrite is_space_lower_char.
  destruct (is_space c); [destruct b|]; simpl; now rewrite IH.
Qed.

Lemma rstrip_cons (c : ascii) (t : string) :
  rstrip (String c t)
  = match rstrip t with
    | EmptyString => if is_space c then EmptyString else String c EmptyString
    | t' => String c t'
    end.
Proof. reflexivity. Qed.

(** A text that [rstrip] leaves as it is: its last character is plain. *)
Lemma rstrip_fixed_inv (c : ascii) (t : string) :
  rstrip (String c t) = String c t ->
  (t = "" /\ is_space c = false) \/ (t <> "" /\ rstrip t = t).
Proof.
  rewrite rstrip_cons. destruct t as [|d t'].
  - simpl. destruct (is_space c); [discriminate|auto].
  - destruct (rstrip (String d t')) as [|e r] eqn:E.
    + destruct (is_space c); discriminate.
    + intros [= <- <-]. right. split; [discriminate|reflexivity].
Qed.

Lemma rstrip_idempotent (s : string) : rstrip (rstrip s) = rstrip s.
Proof.
  induction s as [|c t IH]; [reflexivity|].
  rewrite rstrip_cons. destruct (rstrip t) as [|d r] eqn:E.
  - destruct (is_space c) eqn:S; [reflexivity|].
    rewrite rstrip_cons. simpl. now rewrite S.
  - rewrite rstrip_cons, IH. reflexivity.
Qed.

Lemma lstrip_fixed (s : string) : lstrip (lstrip s) = lstrip s.
Proof.
  induction s as [|c t IH]; [reflexivity|].
  simpl. destruct (is_space c) eqn:S; [exact IH|].
  simpl. now rewrite S.
Qed.

(** [rstrip] keeps a plain first character. *)
Lemma lstrip_rstrip (s : string) : lstrip s = s -> lstrip (rstrip s) = rstrip s.
Proof.
  destruct s as [|c t]; [reflexivity|].
  simpl lstrip at 1. destruct (is_space c) eqn:S.
  - intros H. exfalso.
    assert (L : (String.length (lstrip t) <= String.length t)%nat).
    { clear. induction t as [|d u IH]; simpl; [lia|].
      destruct (is_space d); simpl; lia. }
    rewrite H in L. simpl in L. lia.
  - intros _. rewrite rstrip_cons.
    destruct (rstrip t); rewrite ?S; simpl; now rewrite S.
Qed.

Lemma strip_idempotent (s : string) : strip (strip s) = strip s.
Proof.
  unfold strip.
  rewrite (lstrip_rstrip (lstrip s) (lstrip_fixed s)).
  apply rstrip_idempotent.
Qed.

Lemma strip_fixed_parts (s : string) :
  lstrip (strip s) = strip s /\ rstrip (strip s) = strip s.
Proof.
  unfold strip. split.
  - apply lstrip_rstrip, lstrip_fixed.
  - apply rstrip_idempotent.
Qed.

Lemma sub_spaces_trimmed (u : string) (b : bool) :
  u <> "" -> rstrip u = u -> trimmed_from b (sub_spaces b u) = true.
Proof.
  revert b. induction u as [|c t IH]; intros b Hne Hr; [congruence|].
  destruct (rstrip_fixed_inv c t Hr) as [[-> S]|[Ht Hrt]].
  - simpl. rewrite S. simpl. now rewrite S.
  - simpl. destruct (is_space c) eqn:S.
    + destruct b.
      * now apply IH.
      * simpl. now rewrite (IH true Ht Hrt).
    + simpl. rewrite S. now apply IH.
Qed.

Lemma trimmed_sub_spaces (p : bool) (v : string) :
  trimmed_from p v = true -> sub_spaces p v = v.
Proof.
  revert p. induction v as [|c t IH]; intros p; simpl; [reflexivity|].
  destruct (is_space c) eqn:S.
  - intros H. apply andb_true_iff in H. destruct H as [H Ht].
    apply andb_true_iff in H. destruct H as [Hc Hp].
    apply Ascii.eqb_eq in Hc. apply negb_true_iff in Hp. subst p c.
    now rewrite (IH true Ht).
  - intros H. now rewrite (IH false H).
Qed.

Lemma trimmed_rstrip (p : bool) (v : string) :
  trimmed_from p v = true -> rstrip v = v.
Proof.
  revert p. induction v as [|c t IH]; intros p; [reflexivity|].
  cbn [trimmed_from]. rewrite rstrip_cons. intros H.
  assert (Ht : exists p', trimmed_from p' t = true
                          /\ (t = "" -> p' = is_space c)).
  { destruct (is_space c) eqn:S.
    - apply andb_true_iff in H. destruct H as [_ H]. exists true. auto.
    - exists false. auto. }
  destruct Ht as (p' & Ht & Hp). rewrite (IH p' Ht).
  destruct t as [|d r]; [|reflexivity].
  specialize (Hp eq_refl). subst p'. simpl in Ht.
  apply negb_true_iff in Ht. now rewrite Ht.
Qed.

Lemma trimmed_strip (v : string) : trimmed_from true v = true -> strip v = v.
Proof.
  intros H. unfold strip.
  assert (L : lstrip v = v).
  { destruct v as [|c t]; [reflexivity|]. simpl in *.
    destruct (is_space c); [|reflexivity].
    rewrite andb_false_r in H. discriminate. }
  rewrite L. eapply trimmed_rstrip, H.
Qed.

Lemma trimmed_single_spaced (p : bool) (v : string) :
  trimmed_from p v = true -> single_spaced p v = true.
Proof.
  revert p. induction v as [|c t IH]; intros p; simpl; [reflexivity|].
  destruct (is_space c); [|apply IH].
  intros H. apply andb_true_iff in H. destruct H as [H Ht].
  now rewrite H, (IH true Ht).
Qed.

Lemma normalize_text_shape (s : string) : is_normalized (normalize_text s) = true.
Proof.
  unfold normalize_text, is_normalized.
  destruct (strip_fixed_parts s) as [L R].
  destruct (strip s) as [|c t] eqn:E; [reflexivity|].
  assert (S : is_space c = false).
  { simpl in L. destruct (is_space c); [|reflexivity]. exfalso.
    assert (Len : (String.length (lstrip t) <= String.length t)%nat).
    { clear. induction t as [|d u IH]; simpl; [lia|].
      destruct (is_space d); simpl; lia. }
    rewrite L in Len. simpl in Len. lia. }
  assert (T : trimmed_from false (sub_spaces false (lower (String c t))) = true).
  { apply sub_spaces_trimmed; [discriminate|].
    rewrite <- lower_rstrip, R. reflexivity. }
  simpl in T |- *. rewrite is_space_lower_char, S in T |- *.
  simpl in T |- *. rewrite is_space_lower_char, S in T |- *. exact T.
Qed.

Lemma normalized_fixed (v : string) :
  is_normalized v = true -> lower v = v -> normalize_text v = v.
Proof.
  intros N Lw. unfold normalize_text.
  destruct v as [|c t]; [reflexivity|].
  unfold is_normalized in N.
  rewrite (trimmed_strip _ N), Lw.
  simpl in N |- *. destruct (is_space c) eqn:S.
  - rewrite andb_false_r in N. discriminate.
  - now rewrite (trimmed_sub_spaces false t N).
Qed.

Lemma normalize_text_lowered (s : string) :
  lower (normalize_text s) = normalize_text s.
Proof.
  unfold normalize_text. now rewrite lower_sub_spaces, lower_idempotent.
Qed.

Lemma normalize_text_idem (s : string) :
  normalize_text (normalize_text s) = normalize_text s.
Proof.
  apply normalized_fixed; [apply normalize_text_shape|apply normalize_text_lowered].
Qed.

Lemma normalize_text_strip (s : string) :
  normalize_text (strip s) = normalize_text s.
Proof. unfold normalize_text. now rewrite strip_idempotent. Qed.

(** ** The order of strings and the index of [load_data] *)

Lemma string_compare_Lt_trans (a b c : string) :
  String.compare a b = Lt -> String.compare b c = Lt -> String.compare a c = Lt.
Proof.
  revert b c. induction a as [|x a IH]; intros [|y b] [|z c]; simpl;
    try discriminate; try reflexivity.
  unfold Ascii.compare.
  destruct (N.compare_spec (N_of_ascii x) (N_of_ascii y)) as [E1|L1|G1];
    destruct (N.compare_spec (N_of_ascii y) (N_of_ascii z)) as [E2|L2|G2];
    try discriminate; intros H1 H2.
  - rewrite E1, E2 in *. rewrite N.compare_refl. eapply IH; eassumption.
  - rewrite E1. now apply N.compare_lt_iff in L2 as ->.
  - rewrite <- E2. now apply N.compare_lt_iff in L1 as ->.
  - assert (L : (N_of_ascii x < N_of_ascii z)%N) by lia.
    now apply N.compare_lt_iff in L as ->.
Qed.

Lemma string_ltb_trans (a b c : string) :
  String.ltb a b = true -> String.ltb b c = true -> String.ltb a c = true.
Proof.
  unfold String.ltb. intros H1 H2.
  destruct (String.compare a b) eqn:E1; try discriminate.
  destruct (String.compare b c) eqn:E2; try discriminate.
  now rewrite (string_compare_Lt_trans a b c E1 E2).
Qed.

Lemma string_ltb_asym (a b : string) :
  String.ltb a b = true -> String.ltb b a = false.
Proof.
  unfold String.ltb. rewrite (String.compare_antisym b a).
  destruct (String.compare a b); simpl; congruence.
Qed.

Lemma string_ltb_total (a b : string) :
  String.ltb a b = false -> a <> b -> String.ltb b a = true.
Proof.
  unfold String.ltb. rewrite (String.compare_antisym b a).
  destruct (String.compare a b) eqn:E; simpl; try congruence.
  intros _ N. apply String.compare_eq_iff in E. congruence.
Qed.

Lemma string_ltb_empty (a : string) : String.ltb a "" = false.
Proof. destruct a; reflexivity. Qed.

Section StrictSort.
Context {K : Type}.
Variable lt : K -> K -> bool.
Hypothesis lt_trans : forall a b c, lt a b = true -> lt b c = true -> lt a c = true.
Hypothesis lt_asym : forall a b, lt a b = true -> lt b a = false.
Hypothesis lt_total : forall a b, lt a b = false -> a <> b -> lt b a = true.

Lemma not_lt_trans (a b c : K) :
  lt b a = false -> lt c b = false -> lt c a = false.
Proof.
  intros H1 H2. destruct (lt c a) eqn:E; [|reflexivity].
  destruct (lt a b) eqn:E3.
  - rewrite (lt_trans c a b E E3) in H2. discriminate.
  - destruct (lt b c) eqn:E4.
    + rewrite (lt_trans b c a E4 E) in H1. discriminate.
    + exfalso.
      assert (N1 : ~ a <> b) by (intros N; apply lt_total in N; congruence).
      assert (N2 : ~ b <> c) by (intros N; apply lt_total in N; congruence).
      assert (N3 : a <> c) by (intros ->; rewrite (lt_asym _ _ E) in E; discriminate).
      apply N1. intros ->. apply N2. intros ->. now apply N3.
Qed.

(** A list without duplicates is sorted strictly by the ascending sort. *)
Lemma isort_strictly_sorted (l : list K) :
  NoDup l ->
  StronglySorted (fun a b => lt a b = true) (PyList.isort lt (fun x => x) l).
Proof.
  intros N.
  assert (S : StronglySorted (fun a b => lt b a = false)
                (PyList.isort lt (fun x => x) l)).
  { apply (isort_sorted lt (fun x : K => x) (fun a b => lt b a = false)).
    - exact lt_asym.
    - auto.
    - intros a b c. apply not_lt_trans. }
  assert (N' : NoDup (PyList.isort lt (fun x => x) l)).
  { eapply Permutation_NoDup; [symmetry; apply isort_perm|exact N]. }
  induction S as [|a t St IH Ha]; constructor.
  - apply IH. now inversion N'.
  - inversion N' as [|? ? Hn _]; subst.
    rewrite Forall_forall in *. intros b Hb.
    apply lt_total; [now apply Ha|]. intros ->. contradiction.
Qed.
End StrictSort.

Lemma companies_strictly_sorted (clean_rows : list Row) :
  StronglySorted (fun a b => String.ltb a b = true)
    (companies (load_data clean_rows)).
Proof.
  unfold load_data. cbn [companies]. unfold PyList.sorted.
  apply isort_strictly_sorted.
  - exact string_ltb_trans.
  - exact string_ltb_asym.
  - exact string_ltb_total.
  - apply dedup_NoDup, String.eqb_eq.
Qed.

Lemma Z_isort_strictly_sorted (l : list Z) :
  StronglySorted Z.lt
    (PyList.isort Z.ltb (fun y => y) (PyList.dedup Z.eqb l)).
Proof.
  assert (S : StronglySorted (fun a b => Z.ltb a b = true)
                (PyList.isort Z.ltb (fun y => y) (PyList.dedup Z.eqb l))).
  { apply isort_strictly_sorted.
    - intros a b c. rewrite !Z.ltb_lt. lia.
    - intros a b. rewrite Z.ltb_lt, Z.ltb_ge. lia.
    - intros a b. rewrite Z.ltb_lt, Z.ltb_ge. lia.
    - apply dedup_NoDup, Z.eqb_eq. }
  induction S as [|a t St IH Ha]; constructor; [exact IH|].
  eapply Forall_impl; [|exact Ha]. intros b. apply Z.ltb_lt.
Qed.

(** X1. [load_data] keeps the rows in file order, and indexes them by the
    company names and by the fiscal years of the rows, each list ascending
    without repetition. *)
Theorem load_data_index (clean_rows : list Row) :
  let ctx := load_data clean_rows in
  rows ctx = clean_rows
  /\ StronglySorted (fun a b => String.ltb a b = true) (companies ctx)
  /\ (forall c, In c (companies ctx) <-> exists r, In r clean_rows /\ Company r = c)
  /\ StronglySorted Z.lt (years ctx)
  /\ (forall y, In y (years ctx) <-> exists r, In r clean_rows /\ FiscalYear r = y).
Proof.
  cbv zeta. split; [reflexivity|].
  split; [apply companies_strictly_sorted|].
  split; [apply companies_of_load_data|].
  split; [apply Z_isort_strictly_sorted|].
  apply years_of_load_data.
Qed.

(** ** [find_company] *)

Lemma find_company_in_None (q : string) (cs : list string) :
  find_company_in q cs = None <->
  forall c, In c cs -> contains (lower c) q = false.
Proof.
  induction cs as [|d t IH]; simpl.
  - split; [intros _ c []|reflexivity].
  - destruct (contains (lower d) q) eqn:E.
    + split; [discriminate|]. intros H. specialize (H d (or_introl eq_refl)).
      congruence.
    + rewrite IH. split.
      * intros H c [<-|Hc]; auto.
      * intros H c Hc. apply H. now right.
Qed.

Lemma find_company_in_split (q : string) (cs : list string) (c : string) :
  find_company_in q cs = Some c ->
  exists before after,
    cs = (before ++ c :: after)%list
    /\ Forall (fun d => contains (lower d) q = false) before
    /\ contains (lower c) q = true.
Proof.
  induction cs as [|d t IH]; simpl; [discriminate|].
  destruct (contains (lower d) q) eqn:E.
  - intros [= <-]. exists [], t. repeat split; [constructor|exact E].
  - intros H. destruct (IH H) as (before & after & -> & Hb & Hc).
    exists (d :: before), after. repeat split; [now constructor|exact Hc].
Qed.

(** X2. [find_company] returns the first company of the list whose
    lower-case name occurs in the normalized query, and nothing exactly when
    no company's does; it sees the query up to letter case only. *)
Theorem find_company_first_match (query : string) (cs : list string) :
  let q := normalize_text query in
  (forall c, find_company query cs = Some c ->
             exists before after,
               cs = (before ++ c :: after)%list
               /\ Forall (fun d => contains (lower d) q = false) before
               /\ contains (lower c) q = true)
  /\ (find_company query cs = None <->
      forall c, In c cs -> contains (lower c) q = false)
  /\ (forall query', lower query' = lower query ->
                     find_company query' cs = find_company query cs).
Proof.
  cbv zeta. unfold find_company. split; [|split].
  - intros c. apply find_company_in_split.
  - apply find_company_in_None.
  - intros query' H. now rewrite (normalize_text_lower _ _ H).
Qed.

Lemma contains_empty (s : string) : contains "" s = true.
Proof. destruct s; reflexivity. Qed.

(** X3. A row whose company name is empty makes [find_company] answer the
    empty name for every query, because the empty name sorts first and
    occurs in every text; the lookup branch then answers that it could not
    understand, and the growth branch gives its guidance, whatever the
    query names. *)
Theorem empty_company_name_shadows (clean_rows : list Row) (query : string) :
  (exists r, In r clean_rows /\ Company r = "") ->
  let ctx := load_data clean_rows in
  find_company query (companies ctx) = Some ""
  /\ (intent (normalize_text query) = Lookup ->
      handle_query ctx query = Ok not_understood)
  /\ (intent (normalize_text query) = Growth ->
      handle_query ctx query = Ok growth_guidance).
Proof.
  intros H ctx.
  assert (F : forall q, find_company q (companies ctx) = Some "").
  { intros q. apply companies_of_load_data in H. fold ctx in H.
    pose proof (companies_strictly_sorted clean_rows) as S. fold ctx in S.
    destruct (companies ctx) as [|c t]; [contradiction|].
    assert (c = "") as ->.
    { destruct H as [E|Hin]; [exact E|].
      inversion S as [|? ? _ Ha]; subst. rewrite Forall_forall in Ha.
      specialize (Ha _ Hin). rewrite string_ltb_empty in Ha. discriminate. }
    unfold find_company. simpl. now rewrite contains_empty. }
  split; [apply F|]. split; intros Hi.
  - unfold handle_query. cbv zeta. rewrite Hi. unfold lookup. rewrite F.
    destruct (find_year (normalize_text query) (years ctx));
      destruct (find_metric (normalize_text query)); reflexivity.
  - unfold handle_query. cbv zeta. rewrite Hi. unfold growth. rewrite F.
    destruct (find_metric (normalize_text query)); reflexivity.
Qed.

(** ** Names that no query reaches *)

Lemma single_spaced_weaken (p : bool) (s : string) :
  single_spaced p s = true -> single_spaced false s = true.
Proof.
  destruct s as [|c t]; simpl; [reflexivity|].
  destruct (is_space c); [|auto].
  intros H. apply andb_true_iff in H. destruct H as [H Ht].
  apply andb_true_iff in H. destruct H as [Hc _]. now rewrite Hc, Ht.
Qed.

Lemma single_spaced_app (p : bool) (a b : string) :
  single_spaced p (a ++ b) = true ->
  single_spaced p a = true /\ single_spaced false b = true.
Proof.
  revert p. induction a as [|c t IH]; intros p; simpl.
  - intros H. split; [reflexivity|]. eapply single_spaced_weaken, H.
  - destruct (is_space c).
    + intros H. apply andb_true_iff in H. destruct H as [H Ht].
      destruct (IH true Ht) as [H1 H2]. now rewrite H, H1.
    + apply IH.
Qed.

Lemma single_spaced_lower (p : bool) (s : string) :
  single_spaced p (lower s) = single_spaced p s.
Proof.
  revert p. induction s as [|c t IH]; intros p; simpl; [reflexivity|].
  rewrite is_space_lower_char, !IH.
  destruct (is_space c) eqn:S; [|reflexivity].
  f_equal. f_equal. revert S.
  destruct c as [[] [] [] [] [] [] [] []]; intros S; try reflexivity;
    discriminate S.
Qed.

(** X4. A company that [find_company] returns has a single-spaced name:
    every white-space character in it is a space with no white space before
    it.  A company whose name holds a tab, a line break, a no-break space
    or two spaces in a row is therefore never extracted, whatever the
    query. *)
Theorem find_company_single_spaced (query : string) (cs : list string) (c : string) :
  find_company query cs = Some c -> single_spaced false c = true.
Proof.
  intros H. apply find_company_in_Some in H. destruct H as [_ H].
  destruct (contains_split _ _ H) as (pre & post & E).
  pose proof (normalize_text_shape query) as N. rewrite E in N.
  assert (S : single_spaced false (pre ++ lower c ++ post) = true).
  { unfold is_normalized in N.
    destruct (pre ++ lower c ++ post) eqn:E'; [reflexivity|].
    eapply single_spaced_weaken, trimmed_single_spaced, N. }
  apply single_spaced_app in S. destruct S as [_ S].
  apply single_spaced_app in S. destruct S as [S _].
  now rewrite single_spaced_lower in S.
Qed.

(** ** [get_row] *)

Lemma get_row_in_split (l : list Row) (c : string) (y : Z) (row : Row) :
  get_row_in l c y = Some row ->
  exists before after,
    l = (before ++ row :: after)%list
    /\ Forall (fun r => lower (Company r) <> lower c \/ FiscalYear r <> y) before
    /\ lower (Company row) = lower c /\ FiscalYear row = y.
Proof.
  induction l as [|r t IH]; simpl; [discriminate|].
  destruct (String.eqb (lower (Company r)) (lower c) && (FiscalYear r =? y)) eqn:E.
  - intros [= <-]. apply andb_true_iff in E. destruct E as [E1 E2].
    apply String.eqb_eq in E1. apply Z.eqb_eq in E2.
    exists [], t. repeat split; [constructor|assumption|assumption].
  - intros H. destruct (IH H) as (before & after & -> & Hb & Hc & Hy).
    exists (r :: before), after. repeat split; try assumption.
    constructor; [|exact Hb].
    apply andb_false_iff in E. destruct E as [E|E].
    + left. now apply String.eqb_neq.
    + right. now apply Z.eqb_neq.
Qed.

Lemma get_row_in_None (l : list Row) (c : string) (y : Z) :
  get_row_in l c y = None <->
  forall r, In r l -> lower (Company r) <> lower c \/ FiscalYear r <> y.
Proof.
  split.
  - intros H r Hr.
    destruct (String.eqb_spec (lower (Company r)) (lower c)) as [E1|]; [|now left].
    destruct (Z.eq_dec (FiscalYear r) y) as [E2|]; [|now right].
    destruct (get_row_in_found l c y r Hr E1 E2) as [row Hrow]. congruence.
  - intros H. destruct (get_row_in l c y) as [row|] eqn:E; [|reflexivity].
    apply get_row_in_Some in E. destruct E as (Hin & Hc & Hy).
    destruct (H row Hin); contradiction.
Qed.

(** X5. [get_row] returns the first row, in file order, of the company (up
    to letter case) and the year asked for, and nothing exactly when the
    dataset has no such row; the letter case of the company asked for does
    not matter. *)
Theorem get_row_first_match (ctx : BotContext) (company : string) (year : Z) :
  (forall row, get_row ctx company year = Some row ->
               exists before after,
                 rows ctx = (before ++ row :: after)%list
                 /\ Forall (fun r => lower (Company r) <> lower company
                                     \/ FiscalYear r <> year) before
                 /\ lower (Company row) = lower company
                 /\ FiscalYear row = year)
  /\ (get_row ctx company year = None <->
      forall r, In r (rows ctx) ->
                lower (Company r) <> lower company \/ FiscalYear r <> year)
  /\ (forall company', lower company' = lower company ->
                       get_row ctx company' year = get_row ctx company year).
Proof.
  unfold get_row. split; [|split].
  - intros row. apply get_row_in_split.
  - apply get_row_in_None.
  - intros company' E. induction (rows ctx) as [|r t IH]; simpl; [reflexivity|].
    now rewrite E, IH.
Qed.

(** ** The years of a query *)

Lemma search_20dd_None (s : string) :
  search_20dd s = None ->
  forall pre post, s = pre ++ post -> match_20dd post = None.
Proof.
  intros H pre post E. destruct (match_20dd post) as [y|] eqn:M; [|reflexivity].
  destruct (search_20dd_found pre post y M) as [y' S]. congruence.
Qed.

(** X6. [find_year] returns nothing but a year of the dataset between 2000
    and 2099 that the pattern reads at some place of the query; a query in
    which the pattern matches nowhere gives nothing, whatever the dataset
    holds. *)
Theorem find_year_sound (query : string) (known : list Z) :
  (forall y, find_year query known = Some y ->
             In y known /\ 2000 <= y <= 2099
             /\ exists pre post, query = pre ++ post /\ match_20dd post = Some y)
  /\ ((forall pre post, query = pre ++ post -> match_20dd post = None) ->
      find_year query known = None).
Proof.
  split.
  - intros y H. apply find_year_Some in H. destruct H as (S & Hin & R).
    repeat split; try assumption; try lia.
    now apply search_20dd_Some_inv.
  - intros H. unfold find_year.
    destruct (search_20dd query) as [y|] eqn:S; [|reflexivity].
    destruct (search_20dd_Some_inv _ _ S) as (pre & post & E & M).
    rewrite (H pre post E) in M. discriminate.
Qed.

Lemma findall_20dd_cons (c : ascii) (t : string) :
  findall_20dd 0 (String c t)
  = match match_20dd (String c t) with
    | Some y => y :: findall_20dd 3 t
    | None => findall_20dd 0 t
    end.
Proof. reflexivity. Qed.

Lemma findall_20dd_range (skip : nat) (s : string) (y : Z) :
  In y (findall_20dd skip s) -> 2000 <= y <= 2099.
Proof.
  intros H. destruct (findall_20dd_sound _ _ _ H) as (pre & post & _ & M).
  eapply match_20dd_range, M.
Qed.

(** X7. The year that [re.search] finds is the first of the years that
    [re.findall] collects: the year of a ranking, comparison or lookup query
    is the first token of the growth handler's scan of the same text. *)
Theorem search_is_first_of_findall (s : string) :
  search_20dd s = hd_error (findall_20dd 0 s).
Proof.
  induction s as [|c t IH]; [reflexivity|].
  rewrite search_20dd_cons, findall_20dd_cons.
  destruct (match_20dd (String c t)); [reflexivity|exact IH].
Qed.

(** X8. The years of the growth handler are exactly the tokens of the
    query, in strictly ascending order (so without repetition), and each
    lies between 2000 and 2099. *)
Theorem growth_years_ascending (q : string) :
  StronglySorted Z.lt (growth_years q)
  /\ (forall y, In y (growth_years q) <-> In y (findall_20dd 0 q))
  /\ (forall y, In y (growth_years q) -> 2000 <= y <= 2099).
Proof.
  split; [apply Z_isort_strictly_sorted|].
  split; [apply growth_years_In|].
  intros y H. apply growth_years_In in H. eapply findall_20dd_range, H.
Qed.

(** ** The guidance answers *)

Lemma growth_years_one (q : string) (y0 : Z) :
  (forall y, In y (findall_20dd 0 q) -> y = y0) ->
  (List.length (growth_years q) < 2)%nat.
Proof.
  intros H.
  pose proof (Z_isort_strictly_sorted (findall_20dd 0 q)) as S.
  fold (PyList.sorted Z.ltb (fun y : Z => y) false
          (PyList.dedup Z.eqb (findall_20dd 0 q))) in S.
  fold (growth_years q) in S.
  assert (A : forall y, In y (growth_years q) -> y = y0).
  { intros y Hy. apply H. now apply growth_years_In. }
  destruct (growth_years q) as [|a [|b t]]; simpl; try lia.
  exfalso. inversion S as [|? ? _ Ha]; subst.
  inversion Ha as [|? ? Hab _]; subst.
  rewrite (A a), (A b) in Hab; simpl; auto. lia.
Qed.

(** X9. The growth branch answers with its guidance when no company is
    found in the query, or no metric, or when the query names fewer than two
    different years (one year written twice counts once). *)
Theorem growth_guidance_cases (ctx : BotContext) (query : string) :
  let q := normalize_text query in
  intent q = Growth ->
  find_company q (companies ctx) = None
  \/ find_metric q = None
  \/ (exists y0, forall y, In y (findall_20dd 0 q) -> y = y0) ->
  handle_query ctx query = Ok growth_guidance.
Proof.
  intros q Hi H. unfold handle_query. cbv zeta. fold q. rewrite Hi.
  unfold growth.
  destruct (find_company q (companies ctx)) as [c|]; [|reflexivity].
  destruct (find_metric q) as [m|]; [|reflexivity].
  destruct H as [H|[H|[y0 H]]]; try discriminate.
  apply growth_years_one in H. apply Nat.ltb_lt in H. rewrite H.
  now rewrite !orb_true_r.
Qed.

(** X10. In the growth branch, when both endpoint years are years of the
    dataset but the company has no row for one of them, the answer names
    the company and the two years as missing data. *)
Theorem growth_missing_data
    (ctx : BotContext) (query : string) (c : string) (m : Metric) (y1 y2 : Z) :
  let q := normalize_text query in
  intent q = Growth ->
  find_company q (companies ctx) = Some c -> c <> "" ->
  find_metric q = Some m ->
  (2 <= List.length (growth_years q))%nat ->
  PyList.first (growth_years q) = Ok y1 ->
  PyList.last (growth_years q) = Ok y2 ->
  In y1 (years ctx) -> In y2 (years ctx) ->
  get_row ctx c y1 = None \/ get_row ctx c y2 = None ->
  handle_query ctx query
  = Ok ("Missing data for " ++ c ++ " in " ++ str_of_int y1
        ++ " or " ++ str_of_int y2 ++ ".").
Proof.
  intros q Hi Hc Hne Hm Hlen H1 H2 I1 I2 Hrow.
  rewrite (growth_reached ctx query c m y1 y2); try assumption.
  unfold growth_between.
  apply mem_In in I1, I2. rewrite I1, I2. cbn [negb orb].
  destruct Hrow as [-> | ->]; [reflexivity|].
  destruct (get_row ctx c y1); reflexivity.
Qed.

(** X11. The ranking and the comparison branches answer with their guidance
    when no metric alias occurs in the query or when [find_year] extracts no
    year, in particular when the year of the query is not in the dataset. *)
Theorem ranking_comparison_guidance (ctx : BotContext) (query : string) :
  let q := normalize_text query in
  find_metric q = None \/ find_year q (years ctx) = None ->
  (intent q = Ranking ->
   handle_query ctx query
   = Ok "Please specify both metric and year. Example: top revenue in 2025")
  /\ (intent q = Comparison ->
      handle_query ctx query
      = Ok "For compare, include metric and year. Example: compare net income 2024").
Proof.
  intros q H. split; intros Hi; unfold handle_query; cbv zeta; fold q; rewrite Hi.
  - unfold ranking. destruct H as [-> | ->]; [reflexivity|].
    destruct (find_metric q); reflexivity.
  - unfold comparison. destruct H as [-> | ->]; [reflexivity|].
    destruct (find_metric q); reflexivity.
Qed.

(** X12. On the lookup branch the answer is the fixed text that the query
    was not understood when no company is found, or when a company is found
    but the year or the metric is missing and the query asks for no summary
    or overview. *)
Theorem lookup_not_understood (ctx : BotContext) (query : string) :
  let q := normalize_text query in
  intent q = Lookup ->
  find_company q (companies ctx) = None
  \/ ((find_year q (years ctx) = None \/ find_metric q = None)
      /\ contains "summary" q = false /\ contains "overview" q = false) ->
  handle_query ctx query = Ok not_understood.
Proof.
  intros q Hi H. unfold handle_query. cbv zeta. fold q. rewrite Hi.
  unfold lookup. destruct H as [-> | (H & -> & ->)]; [reflexivity|].
  destruct (find_company q (companies ctx)) as [c|]; [|reflexivity].
  rewrite andb_false_r.
  destruct H as [-> | ->]; [reflexivity|].
  destruct (find_year q (years ctx)); reflexivity.
Qed.

(** ** The listing of the comparison branch *)

Section SortedOn.
Context {A K : Type}.
Variable lt : K -> K -> bool.
Variable key : A -> K.
Variable le : K -> K -> Prop.
Variable P : K -> Prop.
Hypothesis lt_true : forall a b, lt a b = true -> le a b.
Hypothesis lt_false : forall a b, P a -> P b -> lt a b = false -> le b a.
Hypothesis le_trans : forall a b c, le a b -> le b c -> le a c.


End SortedOn.



(** Elements of one class, none of which is below another, keep their order
    in the sort. *)
Section Stable.
Context {A K : Type}.
Variable lt : K -> K -> bool.
Variable key : A -> K.
Variable P : A -> bool.
Hypothesis class_not_lt :
  forall x y, P x = true -> P y = true -> lt (key y) (key x) = false.




End Stable.




(** ** The summary *)

(** X14. When the summary branch is reached and the company has a row for
    the greatest year of the dataset, the answer is the five-line block of
    that row for that year, whatever year the query names. *)
Theorem summary_of_latest_year
    (ctx : BotContext) (query : string) (c : string) (latest : Z) (row : Row) :
  let q := normalize_text query in
  intent q = Lookup ->
  find_company q (companies ctx) = Some c -> c <> "" ->
  find_year q (years ctx) = None \/ find_metric q = None ->
  contains "summary" q || contains "overview" q = true ->
  PyList.max (years ctx) = Ok latest ->
  get_row ctx c latest = Some row ->
  (forall y, In y (years ctx) -> y <= latest)
  /\ lower (Company row) = lower c /\ FiscalYear row = latest
  /\ handle_query ctx query
     = Ok (c ++ " summary (" ++ str_of_int latest ++ "):" ++ LF
           ++ "- Revenue: " ++ money (total_revenue row) ++ LF
           ++ "- Net Income: " ++ money (net_income row) ++ LF
           ++ "- Total Assets: " ++ money (total_assets row) ++ LF
           ++ "- Total Liabilities: " ++ money (total_liabilities row) ++ LF
           ++ "- Operating Cash Flow: " ++ money (operating_cash_flow row)).
Proof.
  intros q Hi Hc Hne Hpoint Hs Hmax Hrow.
  split; [now apply max_spec|].
  pose proof (get_row_in_Some _ _ _ _ Hrow) as (_ & E1 & E2).
  split; [exact E1|]. split; [exact E2|].
  unfold handle_query. cbv zeta. fold q. rewrite Hi.
  unfold lookup. rewrite Hc, (truthy_str_nonempty c Hne), Hs.
  assert (S : summary ctx c
              = Ok (c ++ " summary (" ++ str_of_int latest ++ "):" ++ LF
           ++ "- Revenue: " ++ money (total_revenue row) ++ LF
           ++ "- Net Income: " ++ money (net_income row) ++ LF
           ++ "- Total Assets: " ++ money (total_assets row) ++ LF
           ++ "- Total Liabilities: " ++ money (total_liabilities row) ++ LF
           ++ "- Operating Cash Flow: " ++ money (operating_cash_flow row))).
  { unfold summary. rewrite Hmax. simpl. now rewrite Hrow. }
  destruct Hpoint as [-> | ->].
  - exact S.
  - destruct (find_year q (years ctx)); exact S.
Qed.

(** ** An empty dataset *)

(** X15. With no row loaded, every query is answered without error: help
    and the two listings show empty lists, and every other query gets the
    guidance of its branch or the text that it was not understood. *)
Theorem empty_dataset_answers (query : string) :
  let ctx := load_data [] in
  handle_query ctx query
  = Ok match intent (normalize_text query) with
       | Help => help_text ctx
       | ListCompanies => "Companies: "
       | ListYears => "Years: "
       | Ranking =>
           "Please specify both metric and year. Example: top revenue in 2025"
       | Comparison =>
           "For compare, include metric and year. Example: compare net income 2024"
       | Growth => growth_guidance
       | Lookup => not_understood
       end.
Proof.
  cbv zeta. unfold handle_query. cbv zeta.
  assert (Y : forall q, find_year q (years (load_data [])) = None).
  { intros q. unfold find_year. destruct (search_20dd q); reflexivity. }
  destruct (intent (normalize_text query)); try reflexivity.
  - unfold ranking. rewrite Y.
    destruct (find_metric (normalize_text query)); reflexivity.
  - unfold comparison. rewrite Y.
    destruct (find_metric (normalize_text query)); reflexivity.
Qed.

(** ** The listings and the reading of the query *)

Lemma not_help_when_listing (q : string) :
  contains "list companies" q = true \/ q = "companies"
  \/ contains "list years" q = true \/ q = "years" ->
  String.eqb q "help" || String.eqb q "h" || String.eqb q "?" = false.
Proof.
  intros H.
  destruct (String.eqb_spec q "help") as [->|_];
    [destruct H as [H|[H|[H|H]]]; discriminate H|].
  destruct (String.eqb_spec q "h") as [->|_];
    [destruct H as [H|[H|[H|H]]]; discriminate H|].
  destruct (String.eqb_spec q "?") as [->|_];
    [destruct H as [H|[H|[H|H]]]; discriminate H|].
  reflexivity.
Qed.

(** X16. A query whose normalized text contains "list companies", or is
    "companies", is answered by the company list, whatever other keyword it
    holds; one that contains "list years", or is "years", and does not ask
    for the companies, is answered by the list of years. *)
Theorem listing_queries (ctx : BotContext) (query : string) :
  let q := normalize_text query in
  (contains "list companies" q = true \/ q = "companies" ->
   handle_query ctx query = Ok ("Companies: " ++ join ", " (companies ctx)))
  /\ (contains "list years" q = true \/ q = "years" ->
      contains "list companies" q = false ->
      handle_query ctx query
      = Ok ("Years: " ++ join ", " (map str_of_int (years ctx)))).
Proof.
  cbv zeta. split.
  - intros H. unfold handle_query, intent. cbv zeta.
    rewrite not_help_when_listing by tauto.
    destruct H as [-> | ->]; reflexivity.
  - intros H N. unfold handle_query, intent. cbv zeta.
    rewrite not_help_when_listing by tauto. rewrite N.
    destruct (String.eqb_spec "companies" (normalize_text query)) as [E|_].
    + rewrite <- E in H. destruct H as [H|H]; discriminate H.
    + destruct H as [-> | ->]; reflexivity.
Qed.

(** X17. [normalize_text] returns a lower-case text without white space at
    either end in which every white-space character is a single space
    between two other characters; it leaves such a text as it is, so it is
    idempotent, and [handle_query] answers a query, its normalized text, its
    stripped text and any respelling of it in another letter case alike. *)
Theorem normalize_text_normal_form (ctx : BotContext) (query : string) :
  is_normalized (normalize_text query) = true
  /\ lower (normalize_text query) = normalize_text query
  /\ normalize_text (normalize_text query) = normalize_text query
  /\ handle_query ctx (normalize_text query) = handle_query ctx query
  /\ handle_query ctx (strip query) = handle_query ctx query
  /\ (forall query', lower query' = lower query ->
                     handle_query ctx query' = handle_query ctx query).
Proof.
  split; [apply normalize_text_shape|].
  split; [apply normalize_text_lowered|].
  split; [apply normalize_text_idem|].
  unfold handle_query. cbv zeta.
  split; [now rewrite normalize_text_idem|].
  split; [now rewrite normalize_text_strip|].
  intros query' H. now rewrite (normalize_text_lower _ _ H).
Qed.

(** ** The read loop *)

Lemma handle_query_returns (clean_rows : list Row) (query : string) :
  exists response, handle_query (load_data clean_rows) query = Ok response.
Proof.
  unfold handle_query. cbv zeta.
  destruct (intent (normalize_text query)); eauto using ranking_Ok,
    comparison_Ok, growth_Ok, lookup_Ok.
Qed.

Lemma main_turn_loaded (clean_rows : list Row) (line : string) :
  let ctx := load_data clean_rows in
  (strip line = "" -> main_turn ctx line = Continue ctx None)
  /\ (strip line <> "" ->
      normalize_text line = "exit" \/ normalize_text line = "quit" ->
      main_turn ctx line = Stop "Bot: Bye.")
  /\ (strip line <> "" ->
      normalize_text line <> "exit" -> normalize_text line <> "quit" ->
      exists response,
        handle_query ctx line = Ok response
        /\ main_turn ctx line = Continue ctx (Some (Ok ("Bot: " ++ response)))).
Proof.
  cbv zeta. unfold main_turn. cbv zeta. rewrite normalize_text_strip.
  split; [|split].
  - intros ->. reflexivity.
  - intros N H. apply String.eqb_neq in N. rewrite N.
    destruct H as [-> | ->]; reflexivity.
  - intros N E Q. apply String.eqb_neq in N, E, Q. rewrite N, E, Q.
    destruct (handle_query_returns clean_rows line) as [r Hr].
    exists r. split; [exact Hr|].
    assert (S : handle_query (load_data clean_rows) (strip line)
                = handle_query (load_data clean_rows) line).
    { unfold handle_query. cbv zeta. now rewrite normalize_text_strip. }
    cbn [orb]. rewrite S, Hr. reflexivity.
Qed.

(** X18. One turn of the read loop on a loaded dataset: a blank line prints
    nothing and the loop goes on; a line that normalizes to "exit" or "quit"
    ends the loop with "Bot: Bye."; any other line prints "Bot: " and the
    answer of [handle_query] to that line, never an error, and the loop goes
    on with the same context. *)
Theorem main_turn_cases (clean_rows : list Row) (line : string) :
  let ctx := load_data clean_rows in
  (strip line = "" -> main_turn ctx line = Continue ctx None)
  /\ (strip line <> "" ->
      normalize_text line = "exit" \/ normalize_text line = "quit" ->
      main_turn ctx line = Stop "Bot: Bye.")
  /\ (strip line <> "" ->
      normalize_text line <> "exit" -> normalize_text line <> "quit" ->
      exists response,
        handle_query ctx line = Ok response
        /\ main_turn ctx line = Continue ctx (Some (Ok ("Bot: " ++ response)))).
Proof. exact (main_turn_loaded clean_rows line). Qed.

(** ** The percentage *)





(** ** The session *)








(** ** Values that are not numbers *)

Lemma infinite_not_zero (x : float) :
  PrimFloat.is_infinity x = true -> PrimFloat.is_zero x = false.
Proof.
  unfold PrimFloat.is_infinity, PrimFloat.is_zero.
  rewrite !FloatAxioms.eqb_spec, abs_spec.
  change (Prim2SF infinity) with (S754_infinity false).
  change (Prim2SF zero) with (S754_zero false).
  unfold SFeqb, SFcompare, SFabs.
  destruct (Prim2SF x) as [[]|[]| |[] m e]; simpl; congruence.
Qed.

(** X21. A value that is NaN is written "$nanM", and an infinite value
    "$infM" or "$-infM" by its sign: [money] raises on no float. *)
Theorem money_not_a_number (value : float) :
  (PrimFloat.is_nan value = true -> money value = "$nanM")
  /\ (PrimFloat.is_nan value = false -> PrimFloat.is_infinity value = true ->
      money value = if PrimFloat.get_sign value then "$-infM" else "$infM").
Proof.
  unfold money. rewrite format_f0_grouped. unfold Prim2SF. split.
  - intros ->. reflexivity.
  - intros -> I. rewrite (infinite_not_zero value I), I.
    destruct (PrimFloat.get_sign value); reflexivity.
Qed.

(** ** The further properties on the sample datasets *)

Lemma find_company_first_match_witness :
  find_company "APPLE Revenue" (companies (load_data Sample.dataset))
  = find_company "apple revenue" (companies (load_data Sample.dataset)).
Proof.
  apply (proj2 (proj2 (find_company_first_match "apple revenue"
                         (companies (load_data Sample.dataset))))).
  reflexivity.
Defined.

Lemma empty_company_name_shadows_witness :
  find_company "Apple revenue 2025" (companies (load_data Edge.nameless))
  = Some ""
  /\ handle_query (load_data Edge.nameless) "Apple revenue 2025"
     = Ok not_understood.
Proof.
  destruct (empty_company_name_shadows Edge.nameless "Apple revenue 2025")
    as (H1 & H2 & _).
  - exists (Sample.row "" 2024 10%float 1%float). split; [|reflexivity].
    simpl. tauto.
  - split; [exact H1|]. apply H2. reflexivity.
Defined.

Lemma find_company_single_spaced_witness : single_spaced false "Microsoft" = true.
Proof.
  apply (find_company_single_spaced "Microsoft summary"
           (companies (load_data Sample.dataset))).
  reflexivity.
Defined.

Lemma get_row_first_match_witness :
  get_row (load_data Sample.dataset) "APPLE" 2025
  = get_row (load_data Sample.dataset) "Apple" 2025.
Proof.
  apply (proj2 (proj2 (get_row_first_match (load_data Sample.dataset)
                         "Apple" 2025))).
  reflexivity.
Defined.

Lemma find_year_sound_witness :
  In 2023 (years (load_data Sample.dataset)) /\ 2000 <= 2023 <= 2099.
Proof.
  destruct (proj1 (find_year_sound "tesla revenue 2023"
                     (years (load_data Sample.dataset))) 2023 eq_refl)
    as (H1 & H2 & _).
  split; assumption.
Defined.

Lemma growth_guidance_cases_witness :
  handle_query (load_data Sample.dataset) "growth of Tesla revenue 2023 2023"
  = Ok growth_guidance.
Proof.
  apply growth_guidance_cases.
  - reflexivity.
  - right. right. exists 2023. intros y H. simpl in H.
    destruct H as [H|[H|[]]]; now symmetry.
Defined.

Lemma growth_missing_data_witness :
  handle_query (load_data Sample.dataset)
    "growth of Amazon revenue from 2023 to 2025"
  = Ok "Missing data for Amazon in 2023 or 2025.".
Proof.
  apply (growth_missing_data (load_data Sample.dataset)
           "growth of Amazon revenue from 2023 to 2025" "Amazon" TotalRevenue
           2023 2025).
  - reflexivity.
  - reflexivity.
  - discriminate.
  - reflexivity.
  - simpl. lia.
  - reflexivity.
  - reflexivity.
  - simpl. tauto.
  - simpl. tauto.
  - left. reflexivity.
Defined.

Lemma ranking_comparison_guidance_witness :
  handle_query (load_data Sample.dataset) "top revenue 2031"
  = Ok "Please specify both metric and year. Example: top revenue in 2025".
Proof.
  apply (proj1 (ranking_comparison_guidance (load_data Sample.dataset)
                  "top revenue 2031" (or_intror eq_refl))).
  reflexivity.
Defined.

Lemma lookup_not_understood_witness :
  handle_query (load_data Sample.dataset) "hello there" = Ok not_understood.
Proof.
  apply lookup_not_understood.
  - reflexivity.
  - left. reflexivity.
Defined.


Lemma summary_of_latest_year_witness :
  handle_query (load_data Sample.dataset) "Tesla overview 2023"
  = Ok ("Tesla summary (2025):" ++ LF
        ++ "- Revenue: $100M" ++ LF
        ++ "- Net Income: $300M" ++ LF
        ++ "- Total Assets: $1,000M" ++ LF
        ++ "- Total Liabilities: $600M" ++ LF
        ++ "- Operating Cash Flow: $50M").
Proof.
  apply (proj2 (proj2 (proj2
           (summary_of_latest_year (load_data Sample.dataset)
              "Tesla overview 2023" "Tesla" 2025
              (Sample.row "Tesla" 2025 100%float 300%float)
              eq_refl eq_refl ltac:(discriminate) (or_intror eq_refl)
              eq_refl eq_refl eq_refl)))).
Defined.

Lemma listing_queries_witness :
  handle_query (load_data Sample.dataset) "top revenue 2025, or list companies"
  = Ok "Companies: Amazon, Apple, Meta, Microsoft, Tesla".
Proof.
  apply (proj1 (listing_queries (load_data Sample.dataset)
                  "top revenue 2025, or list companies")).
  left. reflexivity.
Defined.

Lemma normalize_text_normal_form_witness :
  handle_query (load_data Sample.dataset) "APPLE REVENUE 2025"
  = handle_query (load_data Sample.dataset) "Apple revenue 2025".
Proof.
  apply (proj2 (proj2 (proj2 (proj2 (proj2
           (normalize_text_normal_form (load_data Sample.dataset)
              "Apple revenue 2025")))))).
  reflexivity.
Defined.

Lemma main_turn_cases_witness :
  main_turn (load_data Sample.dataset) "  QUIT " = Stop "Bot: Bye.".
Proof.
  apply (proj1 (proj2 (main_turn_cases Sample.dataset "  QUIT "))).
  - discriminate.
  - right. reflexivity.
Defined.



Lemma money_not_a_number_witness : money PrimFloat.nan = "$nanM".
Proof. apply (proj1 (money_not_a_number PrimFloat.nan)). reflexivity. Defined.

(** ** Further runs *)

Example double_spaced_name_not_found :
  find_company "foo  bar revenue 2025" (companies (load_data Edge.double_spaced))
  = None.
Proof. reflexivity. Qed.

Example comparison_run :
  handle_query (load_data Sample.dataset) "compare net income 2025"
  = Ok ("Net Income (USD millions) in 2025:" ++ LF
        ++ "- Microsoft: $900M" ++ LF
        ++ "- Meta: $900M" ++ LF
        ++ "- Apple: $500M" ++ LF
        ++ "- Tesla: $300M").
Proof. reflexivity. Qed.

Example session_run :
  Loop.main Sample.dataset ["Apple revenue 2025"; "   "; " Quit"; "Tesla summary"]
  = ([Loop.banner;
      "Bot: Apple Total Revenue (USD millions) in 2025: $400,000M.";
      "Bot: Bye."], None).
Proof. reflexivity. Qed.
